(** * SmartStick cloud backend: device event processing and alerting

    A shallow embedding of the parts of the server that the specification
    talks about:

    - [server/utils/validators.js]: [sanitizeText], [isValidObjectId],
      [isValidDeviceId], [validateTelemetry], [validateSOS];
    - [server/models/Event.js]: the incident document, its schema
      constraints and the methods [acknowledge], [resolve], [escalate],
      [createSOSEvent];
    - [server/controllers/sosController.js]: [receiveSOS], [resolveSOS],
      [escalateSOS];
    - [server/controllers/telemetryController.js]: [receiveTelemetry],
      [checkForAlerts];
    - [server/routes/telemetry.js], [server/routes/sos.js]: the validation
      chains in front of the two device endpoints;
    - [server/mqtt/mqttClient.js]: [handleTelemetryMessage],
      [handleLowBatteryAlert], [checkCriticalSensorReadings], [sendCommand];
    - [server/controllers/commandController.js]: [sendCommand],
      [sendBulkCommands].

    and, around them, the topic routing of the MQTT client
    ([setupSubscriptions], [handleMessage], [topicMatches],
    [extractDeviceId], [handleSOSMessage]), the other handlers of an SOS
    incident ([getSOSEvents], [getSOSEvent], [acknowledgeSOS]), the
    listings with their pagination ([getCommandHistory],
    [getLatestTelemetry], [getGPSTrack]), [sendEmergencyCommands], and the
    account side of device ownership ([server/models/User.js] and [login],
    [addDevice], [removeDevice] of [server/controllers/userController.js]).

    Conventions.  A JavaScript string is the list of its UTF-16 code units.
    A JavaScript number is a rational: the comparisons the code makes are
    between a finite reading and a constant threshold, where the order of
    doubles is the order of the rationals they denote (NaN and the
    infinities are not JSON and are left out); the one computation, the
    magnitude of the fall rule, is noted where it is defined.  [new Date()]
    and [Date.now()] are an explicit argument [now], in milliseconds.  The
    document store is reliable: a database call fails only where a schema
    validator rejects the document.  Two behaviours of the schemas matter
    throughout: the setter [trim: true] trims a [deviceId] when a document
    is built, and an incident built without coordinates is rejected,
    because [location.coordinates] then has the default [[]], which its
    validator refuses. *)

From Stdlib Require Import ZArith QArith List String Ascii Bool Lia.
Import ListNotations.

Set Implicit Arguments.

(** ** JavaScript strings and values *)

Module JS.

(** A string is its sequence of UTF-16 code units. *)
Definition jsstring := list N.

(** String literals of the source, which are all ASCII. *)
Definition lit (s : string) : jsstring :=
  map N_of_ascii (list_ascii_of_string s).

Definition jsstring_eqb (a b : jsstring) : bool :=
  if list_eq_dec N.eq_dec a b then true else false.

(** ECMAScript [WhiteSpace] and [LineTerminator] code points, the ones
    [String.prototype.trim] strips. *)
Definition isWhiteSpace (c : N) : bool :=
  ((9 <=? c) && (c <=? 13) || (c =? 32) || (c =? 160) || (c =? 5760)
   || (8192 <=? c) && (c <=? 8202) || (c =? 8232) || (c =? 8233)
   || (c =? 8239) || (c =? 8287) || (c =? 12288) || (c =? 65279))%N.

Fixpoint trimStart (s : jsstring) : jsstring :=
  match s with
  | c :: s' => if isWhiteSpace c then trimStart s' else s
  | [] => []
  end.

Definition trimEnd (s : jsstring) : jsstring := rev (trimStart (rev s)).

Definition trim (s : jsstring) : jsstring := trimEnd (trimStart s).

(** A JSON value, as a request body or an MQTT payload carries it. *)
Unset Elimination Schemes.
Inductive jsval :=
| JUndefined
| JNull
| JBool (b : bool)
| JNum (q : Q)
| JStr (s : jsstring)
| JArr (items : list jsval)
| JObj (fields : list (jsstring * jsval)).
Set Elimination Schemes.

(** [ToBoolean]. *)
Definition truthy (v : jsval) : bool :=
  match v with
  | JUndefined | JNull => false
  | JBool b => b
  | JNum q => negb (Qeq_bool q 0)
  | JStr s => match s with [] => false | _ => true end
  | JArr _ | JObj _ => true
  end.

(** A numeric field of a sensor reading: absent, [null], or a number.
    These are the bodies and payloads the development covers.  A JSON
    string that holds a numeral, which [isFloat] accepts as well and which
    is truthy whatever its value, is outside of it: where a statement
    below ranges over readings, it says nothing of such a string. *)
Inductive reading :=
| RUndefined
| RNull
| RNum (q : Q).

Definition rtruthy (r : reading) : bool :=
  match r with
  | RNum q => negb (Qeq_bool q 0)
  | _ => false
  end.

Definition Qltb (x y : Q) : bool := negb (Qle_bool y x).

(** [r < k] for a numeric constant [k]: [undefined] converts to NaN and
    compares false, [null] converts to 0. *)
Definition rlt (r : reading) (k : Q) : bool :=
  match r with
  | RUndefined => false
  | RNull => Qltb 0 k
  | RNum q => Qltb q k
  end.

(** [r || k] followed by a numeric use. *)
Definition ror (r : reading) (k : Q) : Q :=
  match r with
  | RNum q => if Qeq_bool q 0 then k else q
  | _ => k
  end.

(** [Math.min] of two numbers. *)
Definition Qmin (x y : Q) : Q := if Qle_bool x y then x else y.

(** The [gps] object of a request body or payload. *)
Record Gps := { lat : reading; lon : reading }.

End JS.

Import JS.

(** ** [server/utils/validators.js] *)

Module Validators.

(** [value.trim().replace(/[<>]/g, "")] on a string. *)
Definition sanitizeString (value : jsstring) : jsstring :=
  filter (fun c => negb ((c =? 60) || (c =? 62))%N) (trim value).

(** [sanitizeText]: values that are not strings are returned as they
    are. *)
Definition sanitizeText (value : jsval) : jsval :=
  match value with
  | JStr s => JStr (sanitizeString s)
  | _ => value
  end.

Definition isHexDigit (c : N) : bool :=
  ((48 <=? c) && (c <=? 57) || (65 <=? c) && (c <=? 70)
   || (97 <=? c) && (c <=? 102))%N.

(** [/^[0-9a-fA-F]{24}$/.test(id)]. *)
Definition isValidObjectId (id : jsstring) : bool :=
  (List.length id =? 24)%nat && forallb isHexDigit id.

Definition isDeviceIdChar (c : N) : bool :=
  ((97 <=? c) && (c <=? 122) || (65 <=? c) && (c <=? 90)
   || (48 <=? c) && (c <=? 57) || (c =? 95) || (c =? 45))%N.

(** [/^[a-zA-Z0-9_-]+$/.test(deviceId) && deviceId.length <= 50]. *)
Definition isValidDeviceId (deviceId : jsstring) : bool :=
  (match deviceId with [] => false | _ => forallb isDeviceIdChar deviceId end)
  && (List.length deviceId <=? 50)%nat.

(** [isFloat({ min, max })] on an optional field: a missing field passes,
    [null] does not. *)
Definition isFloatIn (lo hi : Q) (r : reading) : bool :=
  match r with
  | RUndefined => true
  | RNull => false
  | RNum q => Qle_bool lo q && Qle_bool q hi
  end.

(** [body("deviceId").trim().isLength({ min: 1, max: 50 })]. *)
Definition validDeviceIdField (deviceId : jsstring) : bool :=
  (1 <=? List.length (trim deviceId))%nat
  && (List.length (trim deviceId) <=? 50)%nat.

Definition validGpsField (gps : Gps) : bool :=
  isFloatIn (-90) 90 gps.(lat) && isFloatIn (-180) 180 gps.(lon).

(** [validateTelemetry()], on the fields of the body the model has. *)
Definition validateTelemetry (deviceId : jsstring)
    (ultrasonicLeft ultrasonicRight : reading) (gps : Gps) : bool :=
  validDeviceIdField deviceId
  && isFloatIn 0 1000 ultrasonicLeft
  && isFloatIn 0 1000 ultrasonicRight
  && validGpsField gps.

(** [validateSOS()]; [gps] is [None] when the body has none. *)
Definition validateSOS (deviceId : jsstring) (gps : option Gps) : bool :=
  validDeviceIdField deviceId
  && match gps with Some g => validGpsField g | None => true end.

End Validators.

(** ** [server/models/Event.js]: the incident document *)

Module Event.

Definition ObjectId := jsstring.

Inductive EventType :=
| SOS | ALERT | DEVICE_ONLINE | DEVICE_OFFLINE | LOW_BATTERY
| FALL_DETECTED | OBSTACLE_DETECTED | GPS_LOST | MAINTENANCE_REQUIRED
| USER_LOGIN | USER_LOGOUT | COMMAND_SENT | COMMAND_RECEIVED
| SYSTEM_ERROR.

Inductive Severity := low | medium | high | critical.

Inductive Status := active | acknowledged | resolved | ignored.

Definition EventType_eq_dec (a b : EventType) : {a = b} + {a <> b}.
Proof. decide equality. Defined.

Definition Status_eq_dec (a b : Status) : {a = b} + {a <> b}.
Proof. decide equality. Defined.

Definition type_is (a b : EventType) : bool :=
  if EventType_eq_dec a b then true else false.

Definition status_is (a b : Status) : bool :=
  if Status_eq_dec a b then true else false.

(** GeoJSON point: [coordinates] is [[longitude, latitude]]. *)
Record Location := { coordinates : Q * Q }.

Record Metadata := {
  emergencyType : jsval;
  alertThreshold : option Q;
  alertValue : reading;
  command : option jsstring;
  (** The entries of the [Map] handed to the [{ type: Map, of: String }]
      path, in their order. *)
  commandParameters : option (list (jsstring * jsval))
}.

Record Notifications := {
  fcmSent : bool;
  fcmTimestamp : option Z
}.

Record ResolutionAction := {
  action : jsstring;
  actionTimestamp : Z;
  performedBy : ObjectId
}.

Record Resolution := {
  resolvedAt : option Z;
  resolvedBy : option ObjectId;
  resolutionNote : jsstring;
  resolutionActions : list ResolutionAction
}.

Record Escalation := {
  escalated : bool;
  escalatedAt : option Z;
  escalatedTo : option ObjectId;
  escalationReason : jsstring;
  escalationLevel : Z
}.

Record Acknowledgment := {
  acknowledgedBy : ObjectId;
  acknowledgedAt : Z;
  note : jsstring
}.

(** The fields of the document the properties below depend on; [title] and
    [description], which are only formatted text, are left out, and so is
    what the schema drops in strict mode ([metadata.sentBy],
    [metadata.messageId]). *)
Record Event := {
  type : EventType;
  deviceId : jsstring;
  userId : option ObjectId;
  timestamp : Z;
  severity : Severity;
  status : Status;
  location : option Location;
  metadata : Metadata;
  notifications : Notifications;
  resolution : Resolution;
  escalation : Escalation;
  acknowledgments : list Acknowledgment
}.

(** Schema defaults. *)
Definition noMetadata : Metadata :=
  {| emergencyType := JUndefined; alertThreshold := None;
     alertValue := RUndefined; command := None;
     commandParameters := None |}.

Definition noNotifications : Notifications :=
  {| fcmSent := false; fcmTimestamp := None |}.

Definition noResolution : Resolution :=
  {| resolvedAt := None; resolvedBy := None; resolutionNote := [];
     resolutionActions := [] |}.

Definition noEscalation : Escalation :=
  {| escalated := false; escalatedAt := None; escalatedTo := None;
     escalationReason := []; escalationLevel := 1 |}.

(** ** Schema validation, as [save] and [create] run it *)

(** [resolution.resolutionNote]: [maxlength: 500]. *)
Definition validResolution (r : Resolution) : bool :=
  (List.length r.(resolutionNote) <=? 500)%nat.

(** [escalation.escalationLevel]: [min: 1], [max: 5]. *)
Definition validEscalation (x : Escalation) : bool :=
  ((1 <=? x.(escalationLevel)) && (x.(escalationLevel) <=? 5))%Z.

(** [location.coordinates]: two numbers, longitude in [-180,180], latitude
    in [-90,90].  [location] is a nested path and [coordinates] an array
    path, so a document built without location has the default
    [coordinates: []]; the validator runs on it, and [coords.length === 2]
    fails (the [2dsphere] index on [location] refuses such a point as
    well).  A document without coordinates is therefore rejected. *)
Definition validLocation (l : option Location) : bool :=
  match l with
  | None => false
  | Some {| coordinates := (lon, lat) |} =>
      Qle_bool (-180) lon && Qle_bool lon 180
      && Qle_bool (-90) lat && Qle_bool lat 90
  end.

(** [deviceId]: [required], [maxlength: 50], on the value as the setter
    [trim: true] left it when the document was built. *)
Definition validDeviceId (d : jsstring) : bool :=
  match d with [] => false | _ => (List.length d <=? 50)%nat end.

(** [metadata.emergencyType]: a string of the [enum], when present. *)
Definition emergencyTypes : list jsstring :=
  map lit ["fall"; "medical"; "panic"; "obstacle"; "manual"; "automatic"]%string.

Definition validEmergencyType (v : jsval) : bool :=
  match v with
  | JUndefined | JNull => true
  | JStr s => existsb (jsstring_eqb s) emergencyTypes
  | _ => false
  end.

(** [metadata.commandParameters], a [Map] of [String]: a key holds no dot
    and starts with no dollar sign, and a value casts to a string, which an
    array or a plain object does not.  A value that casts is stored as
    that string; the field [commandParameters] of the model holds the
    entries as they are handed to the path, and no document that has them
    is ever stored, since none comes with coordinates. *)
Definition validMapKey (k : jsstring) : bool :=
  negb (existsb (N.eqb 46) k)
  && match k with c :: _ => negb (c =? 36)%N | [] => true end.

Definition castsToString (v : jsval) : bool :=
  match v with
  | JArr _ | JObj _ => false
  | _ => true
  end.

Definition validCommandParameters (m : option (list (jsstring * jsval))) : bool :=
  match m with
  | None => true
  | Some entries =>
      forallb (fun kv => validMapKey (fst kv) && castsToString (snd kv)) entries
  end.

Definition validEvent (e : Event) : bool :=
  validDeviceId e.(deviceId) && validLocation e.(location)
  && validEmergencyType e.(metadata).(emergencyType)
  && validCommandParameters e.(metadata).(commandParameters)
  && validResolution e.(resolution) && validEscalation e.(escalation).

(** [this.save()]: the promise resolves with the document when validation
    passes and is rejected with a ValidationError otherwise, in which case
    the stored document stays as it was. *)
Definition save (e : Event) : option Event :=
  if validEvent e then Some e else None.

Definition with_deviceId (e : Event) (d : jsstring) : Event :=
  {| type := e.(type); deviceId := d; userId := e.(userId);
     timestamp := e.(timestamp); severity := e.(severity);
     status := e.(status);
     location := e.(location); metadata := e.(metadata);
     notifications := e.(notifications); resolution := e.(resolution);
     escalation := e.(escalation); acknowledgments := e.(acknowledgments) |}.

(** [Event.create(eventData)]: the document is built with the schema
    defaults for what [eventData] leaves out, its [deviceId] trimmed by
    the setter of the schema, then validated and stored. *)
Definition create (e : Event) : option Event :=
  save (with_deviceId e (trim e.(deviceId))).

(** ** Instance methods *)

(** The virtual [isAcknowledged]. *)
Definition isAcknowledged (e : Event) : bool :=
  match e.(acknowledgments) with [] => false | _ => true end.

Definition with_status (e : Event) (s : Status) : Event :=
  {| type := e.(type); deviceId := e.(deviceId); userId := e.(userId);
     timestamp := e.(timestamp); severity := e.(severity); status := s;
     location := e.(location); metadata := e.(metadata);
     notifications := e.(notifications); resolution := e.(resolution);
     escalation := e.(escalation); acknowledgments := e.(acknowledgments) |}.

Definition with_acknowledgments (e : Event) (l : list Acknowledgment) : Event :=
  {| type := e.(type); deviceId := e.(deviceId); userId := e.(userId);
     timestamp := e.(timestamp); severity := e.(severity);
     status := e.(status);
     location := e.(location); metadata := e.(metadata);
     notifications := e.(notifications); resolution := e.(resolution);
     escalation := e.(escalation); acknowledgments := l |}.

Definition with_resolution (e : Event) (r : Resolution) : Event :=
  {| type := e.(type); deviceId := e.(deviceId); userId := e.(userId);
     timestamp := e.(timestamp); severity := e.(severity);
     status := e.(status);
     location := e.(location); metadata := e.(metadata);
     notifications := e.(notifications); resolution := r;
     escalation := e.(escalation); acknowledgments := e.(acknowledgments) |}.

Definition with_escalation (e : Event) (x : Escalation) : Event :=
  {| type := e.(type); deviceId := e.(deviceId); userId := e.(userId);
     timestamp := e.(timestamp); severity := e.(severity);
     status := e.(status);
     location := e.(location); metadata := e.(metadata);
     notifications := e.(notifications); resolution := e.(resolution);
     escalation := x; acknowledgments := e.(acknowledgments) |}.

Definition with_notifications (e : Event) (n : Notifications) : Event :=
  {| type := e.(type); deviceId := e.(deviceId); userId := e.(userId);
     timestamp := e.(timestamp); severity := e.(severity);
     status := e.(status);
     location := e.(location); metadata := e.(metadata);
     notifications := n; resolution := e.(resolution);
     escalation := e.(escalation); acknowledgments := e.(acknowledgments) |}.

(** [acknowledge(userId, note)]: the document as the method leaves it
    before [this.save()]. *)
Definition acknowledge (e : Event) (user : ObjectId) (n : jsstring)
    (now : Z) : Event :=
  if negb (isAcknowledged e) then
    let e1 :=
      with_acknowledgments e
        (e.(acknowledgments)
         ++ [{| acknowledgedBy := user; acknowledgedAt := now; note := n |}])
    in
    if status_is e1.(status) active then with_status e1 acknowledged else e1
  else e.

(** [resolve(userId, resolutionNote, actions)], before [this.save()]. *)
Definition resolve (e : Event) (user : ObjectId) (n : jsstring)
    (actions : list jsstring) (now : Z) : Event :=
  with_resolution (with_status e resolved)
    {| resolvedAt := Some now;
       resolvedBy := Some user;
       resolutionNote := n;
       resolutionActions :=
         map (fun a => {| action := a; actionTimestamp := now;
                          performedBy := user |}) actions |}.

(** [escalate(escalatedTo, reason, level)], before [this.save()];
    [Math.min(level, 5)]. *)
Definition escalate (e : Event) (target : option ObjectId)
    (reason : jsstring) (level : Z) (now : Z) : Event :=
  with_escalation e
    {| escalated := true;
       escalatedAt := Some now;
       escalatedTo := target;
       escalationReason := reason;
       escalationLevel := Z.min level 5 |}.

(** ** Static methods *)

(** [createSOSEvent(deviceId, location, metadata)]: the [eventData] handed
    to [this.create], completed with the schema defaults ([status] is
    [active], [timestamp] is [Date.now]).  The location is set under
    [location && location.lat && location.lon].  [emergency] is the
    [emergencyType] of the merged metadata. *)
Definition sosEventData (device : jsstring) (gps : option Gps)
    (emergency : jsval) (now : Z) : Event :=
  {| type := SOS;
     deviceId := device;
     userId := None;
     timestamp := now;
     severity := critical;
     status := active;
     location :=
       match gps with
       | Some g =>
           if rtruthy g.(lat) && rtruthy g.(lon) then
             match g.(lat), g.(lon) with
             | RNum la, RNum lo => Some {| coordinates := (lo, la) |}
             | _, _ => None
             end
           else None
       | None => None
       end;
     metadata :=
       {| emergencyType := emergency; alertThreshold := None;
          alertValue := RUndefined; command := None;
          commandParameters := None |};
     notifications := noNotifications;
     resolution := noResolution;
     escalation := noEscalation;
     acknowledgments := [] |}.

Definition createSOSEvent (device : jsstring) (gps : option Gps)
    (emergency : jsval) (now : Z) : option Event :=
  create (sosEventData device gps emergency now).

End Event.

Import Event.

(** ** [server/models/User.js]: what the pipeline reads of a user *)

Module User.

Record User := {
  devices : list jsstring;
  isAdmin : bool;
  isActive : bool;
  (** [None] when the field is missing or [null]. *)
  fcmToken : option jsstring
}.

Definition ownsDevice (u : User) (device : jsstring) : bool :=
  existsb (fun d => jsstring_eqb d device) u.(devices).

(** [findUsersWithFCMByDevice(deviceId)]: the users that own the device,
    hold a token that exists and is not [null], and are active. *)
Definition findUsersWithFCMByDevice (users : list User) (device : jsstring)
    : list User :=
  filter (fun u =>
            ownsDevice u device
            && (match u.(fcmToken) with Some _ => true | None => false end)
            && u.(isActive)) users.

(** [users.map((user) => user.fcmToken).filter((token) => token)]: the
    empty string is dropped. *)
Definition fcmTokens (found : list User) : list jsstring :=
  flat_map (fun u => match u.(fcmToken) with
                     | Some (c :: t) => [c :: t]
                     | _ => []
                     end) found.

End User.

Import User.

(** ** [server/controllers/sosController.js] *)

Module SOSController.

(** What a handler answers: the HTTP status, the [success] flag of the
    body and, where the body has one, [data.notificationsSent]. *)
Record Response := {
  httpStatus : Z;
  success : bool;
  notificationsSent : option nat
}.

Definition respond (code : Z) (ok : bool) : Response :=
  {| httpStatus := code; success := ok; notificationsSent := None |}.

Section ReceiveSOS.

(** The registered users and the outcome of the push service for a list of
    tokens ([fcmResult.success]). *)
Variable users : list User.
Variable sendSOSNotification : list jsstring -> bool.

(** [receiveSOS]: the response and the incident left in the store, if
    any.  [emergency] is [metadata.emergencyType] of the body, [JUndefined]
    when the body has none: the two object spreads let a value of the body
    override the default ["manual"] whatever it is.  A ValidationError is
    answered with 400. *)
Definition receiveSOS (device : jsstring) (gps : option Gps)
    (emergency : jsval) (now : Z) : Response * option Event :=
  let emergency' :=
    match emergency with
    | JUndefined => JStr (lit "manual")
    | _ => emergency
    end in
  match createSOSEvent (Validators.sanitizeString device) gps emergency' now with
  | None => (respond 400 false, None)
  | Some sosEvent =>
      let found := findUsersWithFCMByDevice users device in
      match found with
      | [] => (respond 200 true, Some sosEvent)
      | _ =>
          let tokens := fcmTokens found in
          let reply :=
            {| httpStatus := 201; success := true;
               notificationsSent := Some (List.length tokens) |} in
          match tokens with
          | [] => (reply, Some sosEvent)
          | _ =>
              let sent :=
                with_notifications sosEvent
                  {| fcmSent := sendSOSNotification tokens;
                     fcmTimestamp := Some now |} in
              match save sent with
              | Some stored => (reply, Some stored)
              | None => (respond 400 false, Some sosEvent)
              end
          end
      end
  end.

End ReceiveSOS.

(** The checks [acknowledgeSOS], [resolveSOS] and [escalateSOS] share
    before they touch the incident: the id is well formed, the incident
    exists and is an SOS, the caller exists and owns the device or is an
    administrator.  [Some code] is the early answer. *)
Definition guard (eventId : jsstring) (found : option Event)
    (caller : option User) : option Z :=
  if negb (Validators.isValidObjectId eventId) then Some 400%Z
  else match found with
       | None => Some 404%Z
       | Some sosEvent =>
           if negb (type_is sosEvent.(type) SOS) then Some 400%Z
           else match caller with
                | None => Some 404%Z
                | Some user =>
                    if ownsDevice user sosEvent.(deviceId) || user.(isAdmin)
                    then None
                    else Some 403%Z
                end
       end.

(** [resolveSOS]: [found] is [Event.findById(eventId)], [caller] is
    [User.findById(req.user.userId)].  The answer, and the document as
    stored afterwards when the call changed it. *)
Definition resolveSOS (eventId : jsstring) (found : option Event)
    (caller : option User) (userId : ObjectId) (resolutionNote : jsstring)
    (actions : list jsstring) (now : Z) : Response * option Event :=
  match guard eventId found caller, found with
  | Some code, _ => (respond code false, None)
  | None, None => (respond 404 false, None)
  | None, Some sosEvent =>
      match save (resolve sosEvent userId
                    (Validators.sanitizeString resolutionNote)
                    (map Validators.sanitizeString actions) now) with
      | Some stored => (respond 200 true, Some stored)
      | None => (respond 500 false, None)
      end
  end.

(** [escalateSOS]; [level] is [parseInt(level)], 1 when the body has
    none. *)
Definition escalateSOS (eventId : jsstring) (found : option Event)
    (caller : option User) (escalatedTo : option ObjectId)
    (reason : jsstring) (level : Z) (now : Z) : Response * option Event :=
  if negb (Validators.isValidObjectId eventId) then (respond 400 false, None)
  else if match escalatedTo with
          | Some (c :: t) => negb (Validators.isValidObjectId (c :: t))
          | _ => false
          end
  then (respond 400 false, None)
  else
    match guard eventId found caller, found with
    | Some code, _ => (respond code false, None)
    | None, None => (respond 404 false, None)
    | None, Some sosEvent =>
        match save (escalate sosEvent escalatedTo
                      (Validators.sanitizeString reason) level now) with
        | Some stored => (respond 200 true, Some stored)
        | None => (respond 500 false, None)
        end
    end.

End SOSController.

(** ** [server/models/Telemetry.js]: a sensor record *)

Module Telemetry.

(** The readings the alert rules look at.  [accelerometer] is
    [sensors.IMU.accelerometer] when its three components are numbers. *)
Record Sensors := {
  ultrasonicLeft : reading;
  ultrasonicRight : reading;
  batteryLevel : reading;
  accelerometer : option (Q * Q * Q)
}.

Record Telemetry := {
  deviceId : jsstring;
  timestamp : Z;
  sensors : Sensors;
  gps : Gps
}.

Definition inRange (lo hi : Q) (r : reading) : bool :=
  match r with
  | RNum q => Qle_bool lo q && Qle_bool q hi
  | _ => true
  end.

(** The schema validators [save] runs on a document: [deviceId] required
    and at most 50 long, the [min] and [max] of each reading. *)
Definition validTelemetry (t : Telemetry) : bool :=
  validDeviceId t.(deviceId)
  && inRange 0 1000 t.(sensors).(ultrasonicLeft)
  && inRange 0 1000 t.(sensors).(ultrasonicRight)
  && inRange 0 100 t.(sensors).(batteryLevel)
  && inRange (-90) 90 t.(gps).(lat)
  && inRange (-180) 180 t.(gps).(lon).

Definition exists_ (r : reading) : bool :=
  match r with RUndefined => false | _ => true end.

(** [new Telemetry(data)] followed by [save()]: the setter [trim: true]
    of the schema trims [deviceId] when the document is built, the
    validators run on the result, and the record is stored as built.
    [None] is a ValidationError. *)
Definition save (t : Telemetry) : option Telemetry :=
  let doc :=
    {| deviceId := trim t.(deviceId); timestamp := t.(timestamp);
       sensors := t.(sensors); gps := t.(gps) |} in
  if validTelemetry doc then Some doc else None.

End Telemetry.

(** The two collections of the document store. *)
Record Store := {
  events : list Event;
  telemetry : list Telemetry.Telemetry
}.

Definition add_events (st : Store) (l : list Event) : Store :=
  {| events := st.(events) ++ l; telemetry := st.(telemetry) |}.

Definition add_telemetry (st : Store) (t : Telemetry.Telemetry) : Store :=
  {| events := st.(events); telemetry := st.(telemetry) ++ [t] |}.

(** An alert of the rule engine as an incident: the schema defaults, and
    the fields the rule sets. *)
Definition alertEvent (ty : EventType) (sev : Severity) (device : jsstring)
    (threshold : option Q) (value : reading) (time : Z) : Event :=
  {| type := ty; deviceId := device; userId := None; timestamp := time;
     severity := sev; status := active; location := None;
     metadata :=
       {| emergencyType := JUndefined; alertThreshold := threshold;
          alertValue := value; command := None; commandParameters := None |};
     notifications := noNotifications; resolution := noResolution;
     escalation := noEscalation; acknowledgments := [] |}.

(** [for (const alertData of alerts) await Event.create(...)] inside a
    [try]: the first rejected document ends the loop, what was created
    before stays. *)
Fixpoint createAll (alerts : list Event) : list Event :=
  match alerts with
  | [] => []
  | a :: rest =>
      match create a with
      | Some stored => stored :: createAll rest
      | None => []
      end
  end.

(** [x * x + y * y + z * z], whose square root the fall rule compares
    with 20. *)
Definition squaredMagnitude (a : Q * Q * Q) : Q :=
  let '(x, y, z) := a in (x * x + y * y + z * z)%Q.

(** ** [server/controllers/telemetryController.js] *)

Module TelemetryController.

(** The low battery rule of [checkForAlerts]:
    [level && level < 20]. *)
Definition lowBatteryAlerts (device : jsstring) (t : Telemetry.Telemetry)
    : list Event :=
  let level := t.(Telemetry.sensors).(Telemetry.batteryLevel) in
  if rtruthy level && rlt level 20 then
    [alertEvent LOW_BATTERY (if rlt level 10 then high else medium) device
       (Some 20%Q) level t.(Telemetry.timestamp)]
  else [].

(** The obstacle rule: [Math.min(left || 1000, right || 1000) < 30]. *)
Definition obstacleAlerts (device : jsstring) (t : Telemetry.Telemetry)
    : list Event :=
  let ultrasonicLeft := t.(Telemetry.sensors).(Telemetry.ultrasonicLeft) in
  let ultrasonicRight := t.(Telemetry.sensors).(Telemetry.ultrasonicRight) in
  let minDistance := Qmin (ror ultrasonicLeft 1000) (ror ultrasonicRight 1000) in
  if Qltb minDistance 30 then
    [alertEvent OBSTACLE_DETECTED
       (if Qltb minDistance 15 then high else medium) device
       (Some 30%Q) (RNum minDistance) t.(Telemetry.timestamp)]
  else [].

(** The fall rule: [Math.sqrt(x*x + y*y + z*z) > 20], decided here on
    the exact sum of squares against 400.  The code computes in doubles,
    so for a magnitude within rounding of 20 its answer can differ; no
    statement below depends on whether this rule fires.  The magnitude
    itself is not recorded here. *)
Definition fallAlerts (device : jsstring) (t : Telemetry.Telemetry)
    : list Event :=
  match t.(Telemetry.sensors).(Telemetry.accelerometer) with
  | Some a =>
      if Qltb 400 (squaredMagnitude a) then
        [alertEvent FALL_DETECTED high device (Some 20%Q) RUndefined
           t.(Telemetry.timestamp)]
      else []
  | None => []
  end.

(** The GPS loss rule: the record has no truthy [lat] or [lon], and an
    earlier record of the device has both fields. *)
Definition gpsLostAlerts (st : Store) (device : jsstring)
    (t : Telemetry.Telemetry) : list Event :=
  if negb (rtruthy t.(Telemetry.gps).(lat))
     || negb (rtruthy t.(Telemetry.gps).(lon)) then
    if existsb (fun p =>
                  jsstring_eqb p.(Telemetry.deviceId) device
                  && (p.(Telemetry.timestamp) <? t.(Telemetry.timestamp))%Z
                  && Telemetry.exists_ p.(Telemetry.gps).(lat)
                  && Telemetry.exists_ p.(Telemetry.gps).(lon))
         st.(telemetry)
    then [alertEvent GPS_LOST medium device None RUndefined
            t.(Telemetry.timestamp)]
    else []
  else [].

(** [checkForAlerts(deviceId, telemetry)]: the four rules in order, then
    one [Event.create] per alert, with no look at earlier incidents. *)
Definition checkForAlerts (st : Store) (device : jsstring)
    (t : Telemetry.Telemetry) : Store :=
  add_events st
    (createAll (lowBatteryAlerts device t ++ obstacleAlerts device t
                ++ fallAlerts device t ++ gpsLostAlerts st device t)).

(** The body of [POST /api/telemetry]. *)
Record Body := {
  deviceId : jsstring;
  sensors : Telemetry.Sensors;
  gps : Gps;
  (** [timestamp], parsed, when the body has one. *)
  timestamp : option Z
}.

(** [receiveTelemetry]: the HTTP status and the store afterwards.  The
    record is built from the sanitized device id, the alerts get the id of
    the body.  A ValidationError of [telemetry.save()] is answered with
    400. *)
Definition receiveTelemetry (st : Store) (body : Body) (now : Z)
    : Z * Store :=
  let data :=
    {| Telemetry.deviceId := Validators.sanitizeString body.(deviceId);
       Telemetry.timestamp :=
         match body.(timestamp) with Some ts => ts | None => now end;
       Telemetry.sensors := body.(sensors);
       Telemetry.gps := body.(gps) |} in
  match Telemetry.save data with
  | Some telemetry =>
      (201%Z,
       checkForAlerts (add_telemetry st telemetry) body.(deviceId) telemetry)
  | None => (400%Z, st)
  end.

End TelemetryController.

(** ** [server/routes/telemetry.js] and [server/routes/sos.js]

    The validation chain runs before the handler; its [trim()] sanitizer
    leaves the trimmed device id in the body the handler reads. *)

Module Routes.

(** [POST /api/telemetry]. *)
Definition postTelemetry (st : Store) (body : TelemetryController.Body)
    (now : Z) : Z * Store :=
  if Validators.validateTelemetry body.(TelemetryController.deviceId)
       body.(TelemetryController.sensors).(Telemetry.ultrasonicLeft)
       body.(TelemetryController.sensors).(Telemetry.ultrasonicRight)
       body.(TelemetryController.gps)
  then
    TelemetryController.receiveTelemetry st
      {| TelemetryController.deviceId :=
           trim body.(TelemetryController.deviceId);
         TelemetryController.sensors := body.(TelemetryController.sensors);
         TelemetryController.gps := body.(TelemetryController.gps);
         TelemetryController.timestamp :=
           body.(TelemetryController.timestamp) |} now
  else (400%Z, st).

(** [POST /api/sos]. *)
Definition postSOS (users : list User)
    (sendSOSNotification : list jsstring -> bool) (device : jsstring)
    (gps : option Gps) (emergency : jsval) (now : Z)
    : SOSController.Response * option Event :=
  if Validators.validateSOS device gps
  then SOSController.receiveSOS users sendSOSNotification (trim device) gps
         emergency now
  else (SOSController.respond 400 false, None).

End Routes.

(** ** [server/mqtt/mqttClient.js] *)

Module MQTTClient.

(** One hour, the window of [handleLowBatteryAlert]. *)
Definition lowBatteryWindow : Z := 60 * 60 * 1000.

(** [Event.findOne({ type: "LOW_BATTERY", deviceId,
    timestamp: { $gte: Date.now() - 60 * 60 * 1000 } })] finds one. *)
Definition recentLowBattery (st : Store) (device : jsstring) (now : Z) : bool :=
  existsb (fun e =>
             type_is e.(type) LOW_BATTERY
             && jsstring_eqb e.(Event.deviceId) device
             && (now - lowBatteryWindow <=? e.(Event.timestamp))%Z)
    st.(events).

(** [handleLowBatteryAlert(deviceId, batteryLevel)]. *)
Definition handleLowBatteryAlert (st : Store) (device : jsstring)
    (batteryLevel : reading) (now : Z) : Store :=
  if recentLowBattery st device now then st
  else
    add_events st
      (createAll
         [alertEvent LOW_BATTERY (if rlt batteryLevel 10 then high else medium)
            device (Some 20%Q) batteryLevel now]).

(** The alerts [checkCriticalSensorReadings] collects: the obstacle rule,
    whose severity is the constant ["medium"], and the fall rule. *)
Definition criticalAlerts (device : jsstring) (t : Telemetry.Telemetry)
    (now : Z) : list Event :=
  let s := t.(Telemetry.sensors) in
  let obstacle :=
    if rlt s.(Telemetry.ultrasonicLeft) 30
       || rlt s.(Telemetry.ultrasonicRight) 30 then
      [alertEvent OBSTACLE_DETECTED medium device (Some 30%Q)
         (RNum (Qmin (ror s.(Telemetry.ultrasonicLeft) 1000)
                     (ror s.(Telemetry.ultrasonicRight) 1000))) now]
    else [] in
  let fall :=
    match s.(Telemetry.accelerometer) with
    | Some a =>
        if Qltb 400 (squaredMagnitude a) then
          [alertEvent FALL_DETECTED high device (Some 20%Q) RUndefined now]
        else []
    | None => []
    end in
  obstacle ++ fall.

(** [checkCriticalSensorReadings(deviceId, telemetryData)]: one
    [Event.create] per alert, in a [try]. *)
Definition checkCriticalSensorReadings (st : Store) (device : jsstring)
    (t : Telemetry.Telemetry) (now : Z) : Store :=
  add_events st (createAll (criticalAlerts device t now)).

(** [handleTelemetryMessage(topic, message)]: [device] is
    [extractDeviceId(topic)], [t] the parsed payload ([t.timestamp] is the
    payload's, or [now]).  A record the schema rejects ends the handler in
    its [catch]. *)
Definition handleTelemetryMessage (st : Store) (device : jsstring)
    (t : Telemetry.Telemetry) (now : Z) : Store :=
  let data :=
    {| Telemetry.deviceId := device;
       Telemetry.timestamp := t.(Telemetry.timestamp);
       Telemetry.sensors := t.(Telemetry.sensors);
       Telemetry.gps := t.(Telemetry.gps) |} in
  match Telemetry.save data with
  | Some telemetry =>
      let st1 := add_telemetry st telemetry in
      let level := t.(Telemetry.sensors).(Telemetry.batteryLevel) in
      let st2 :=
        if rlt level 20 then handleLowBatteryAlert st1 device level now
        else st1 in
      checkCriticalSensorReadings st2 device t now
  | None => st
  end.

(** The [commandMessage] of [sendCommand], with the device whose command
    topic it is published to. *)
Module CommandMessage.

Record t := {
  device : jsstring;
  command : jsstring;
  parameters : list (jsstring * jsval);
  timestamp : Z;
  messageId : jsstring
}.

End CommandMessage.

Section Commands.

(** The broker: whether the client is connected, and whether a publish to
    the command topic of a device is acknowledged.  [generateMessageId]
    is the id made for a device's command. *)
Variable connected : bool.
Variable published : jsstring -> bool.
Variable generateMessageId : jsstring -> jsstring.

Record SendResult := {
  success : bool;
  messageId : option jsstring
}.

(** The document [sendCommand] hands to [Event.create]: no location. *)
Definition commandSentEvent (device : jsstring) (user : option ObjectId)
    (cmd : jsstring) (parameters : list (jsstring * jsval)) (now : Z) : Event :=
  {| type := COMMAND_SENT; deviceId := device; userId := user;
     timestamp := now; severity := low; status := active; location := None;
     metadata :=
       {| emergencyType := JUndefined; alertThreshold := None;
          alertValue := RUndefined; command := Some cmd;
          commandParameters := Some parameters |};
     notifications := noNotifications; resolution := noResolution;
     escalation := noEscalation; acknowledgments := [] |}.

(** [sendCommand(deviceId, command, parameters)]: publish, then record a
    [COMMAND_SENT] incident; any failure is caught and reported in the
    result.  The third component is what the broker took: a message that
    went out stays out when the record is rejected afterwards. *)
Definition sendCommand (st : Store) (device : jsstring) (cmd : jsstring)
    (parameters : list (jsstring * jsval)) (now : Z)
    : SendResult * Store * list CommandMessage.t :=
  if connected && published device then
    let commandMessage :=
      {| CommandMessage.device := device;
         CommandMessage.command := cmd;
         CommandMessage.parameters := parameters;
         CommandMessage.timestamp := now;
         CommandMessage.messageId := generateMessageId device |} in
    match create (commandSentEvent device None cmd parameters now) with
    | Some stored =>
        ({| success := true; messageId := Some (generateMessageId device) |},
         add_events st [stored], [commandMessage])
    | None =>
        ({| success := false; messageId := None |}, st, [commandMessage])
    end
  else ({| success := false; messageId := None |}, st, []).

End Commands.

End MQTTClient.

(** ** [server/controllers/commandController.js] *)

Module CommandController.

Definition validCommands : list jsstring :=
  map lit ["vibrate"; "beep"; "led_on"; "led_off"; "status_check"; "reboot"]%string.

Definition isValidCommand (cmd : jsstring) : bool :=
  existsb (jsstring_eqb cmd) validCommands.

(** An object as the list of its own enumerable properties, in the order
    [Object.entries] lists them (integer-like keys in ascending order, then
    the other keys in the order they were added). *)
Definition object := list (jsstring * jsval).

Definition hasKey (obj : object) (key : jsstring) : bool :=
  existsb (fun kv => jsstring_eqb (fst kv) key) obj.

(** [obj[key] = value] on an ordinary object, for keys that arrive in the
    order of [Object.entries]: a new key comes last, a known one keeps its
    place, and the key [__proto__] reaches the setter of
    [Object.prototype], which adds no property. *)
Definition assign (obj : object) (key : jsstring) (value : jsval) : object :=
  if jsstring_eqb key (lit "__proto__") then obj
  else if hasKey obj key then
    map (fun kv => if jsstring_eqb (fst kv) key then (key, value) else kv) obj
  else obj ++ [(key, value)].

(** The loop that fills [sanitizedParameters]:
    [Validators.sanitizeText] is applied to the string values. *)
Definition sanitizeParameters (parameters : object) : object :=
  fold_left
    (fun acc kv =>
       match snd kv with
       | JStr s => assign acc (fst kv) (Validators.sanitizeText (JStr s))
       | v => assign acc (fst kv) v
       end)
    parameters [].

(** What [sendCommand] answers: the status and, on success,
    [data.parameters]. *)
Record Response := {
  httpStatus : Z;
  success : bool;
  parameters : option object
}.

Definition respond (code : Z) : Response :=
  {| httpStatus := code; success := false; parameters := None |}.

(** One entry of [results] in a bulk answer. *)
Record DeviceResult := {
  deviceId : jsstring;
  sent : bool;
  messageId : option jsstring
}.

Record BulkResponse := {
  bulkStatus : Z;
  bulkSuccess : bool;
  results : list DeviceResult;
  successCount : nat;
  totalDevices : nat
}.

Definition bulkRespond (code : Z) : BulkResponse :=
  {| bulkStatus := code; bulkSuccess := false; results := [];
     successCount := 0; totalDevices := 0 |}.

Section Dispatch.

Variable connected : bool.
Variable published : jsstring -> bool.
Variable generateMessageId : jsstring -> jsstring.

Let mqttSend := MQTTClient.sendCommand connected published generateMessageId.

(** [sendCommand], with the messages it has published: [device] is
    [req.params.deviceId], [caller] is [User.findById(req.user.userId)]. *)
Definition dispatch (st : Store) (device : jsstring)
    (caller : option User) (userId : ObjectId) (cmd : jsstring)
    (params : object) (now : Z)
    : Response * Store * list MQTTClient.CommandMessage.t :=
  if negb (Validators.isValidDeviceId device) then (respond 400, st, [])
  else match caller with
  | None => (respond 404, st, [])
  | Some user =>
    if negb (ownsDevice user device || user.(isAdmin)) then
      (respond 403, st, [])
    else if negb (isValidCommand cmd) then (respond 400, st, [])
    else if negb connected then (respond 503, st, [])
    else
      let sanitizedParameters := sanitizeParameters params in
      let '(result, st1, out) :=
        mqttSend st device cmd sanitizedParameters now in
      if negb result.(MQTTClient.success) then (respond 500, st1, out)
      else
        match create (MQTTClient.commandSentEvent device (Some userId) cmd
                        sanitizedParameters now) with
        | Some stored =>
            ({| httpStatus := 200; success := true;
                parameters := Some sanitizedParameters |},
             add_events st1 [stored], out)
        | None => (respond 500, st1, out)
        end
  end.

(** [sendCommand]: the answer and the store afterwards. *)
Definition sendCommand (st : Store) (device : jsstring)
    (caller : option User) (userId : ObjectId) (cmd : jsstring)
    (params : object) (now : Z) : Response * Store :=
  fst (dispatch st device caller userId cmd params now).

(** The body of the loop of [sendBulkCommands] for one device: the
    entries it appends to [results], the store, and the messages
    published. *)
Definition bulkStep (userId : ObjectId) (cmd : jsstring) (params : object)
    (now : Z)
    (acc : list DeviceResult * Store * list MQTTClient.CommandMessage.t)
    (device : jsstring)
    : list DeviceResult * Store * list MQTTClient.CommandMessage.t :=
  let '(res, st, sent0) := acc in
  if negb (Validators.isValidDeviceId device) then
    (res ++ [{| deviceId := device; sent := false; messageId := None |}], st,
     sent0)
  else
    let '(result, st1, out) := mqttSend st device cmd params now in
    let res1 :=
      res ++ [{| deviceId := device; sent := result.(MQTTClient.success);
                 messageId := result.(MQTTClient.messageId) |}] in
    if result.(MQTTClient.success) then
      match create (MQTTClient.commandSentEvent device (Some userId) cmd
                      params now) with
      | Some stored => (res1, add_events st1 [stored], sent0 ++ out)
      | None =>
          (res1 ++ [{| deviceId := device; sent := false; messageId := None |}],
           st1, sent0 ++ out)
      end
    else (res1, st1, sent0 ++ out).

(** [sendBulkCommands]: [deviceIds] is the array of the body. *)
Definition sendBulkCommands (st : Store) (isAdminCaller : bool)
    (userId : ObjectId) (deviceIds : list jsstring) (cmd : jsstring)
    (params : object) (now : Z)
    : BulkResponse * Store * list MQTTClient.CommandMessage.t :=
  if negb isAdminCaller then (bulkRespond 403, st, [])
  else match deviceIds with
  | [] => (bulkRespond 400, st, [])
  | _ =>
    if negb (isValidCommand cmd) then (bulkRespond 400, st, [])
    else if negb connected then (bulkRespond 503, st, [])
    else
      let '(res, st1, out) :=
        fold_left (bulkStep userId cmd params now) deviceIds ([], st, []) in
      let n := List.length (filter sent res) in
      ({| bulkStatus := if (0 <? n)%nat then 200 else 500;
          bulkSuccess := (0 <? n)%nat;
          results := res;
          successCount := n;
          totalDevices := List.length deviceIds |}, st1, out)
  end.

End Dispatch.

End CommandController.

(** ** Sample data for the scenarios *)

Module Sample.

Definition stick001 : jsstring := lit "stick-001".

Definition alice : ObjectId := lit "64b7f0c2a1d3e4f5a6b7c8d9".
Definition bob : ObjectId := lit "64b7f0c2a1d3e4f5a6b7c8da".
Definition sosId : jsstring := lit "650000000000000000000001".

(** New York, as in the specification's scenario. *)
Definition newYork : Gps :=
  {| lat := RNum (40.7128)%Q; lon := RNum (-74.0060)%Q |}.

(** An active SOS incident of [stick-001], created at time 1000. *)
Definition sos : Event :=
  sosEventData stick001 (Some newYork) (JStr (lit "manual")) 1000.

(** An administrator. *)
Definition admin : User :=
  {| devices := []; isAdmin := true; isActive := true; fcmToken := None |}.

(** The owner of [stick-001], registered with an empty token. *)
Definition ownerWithoutToken : User :=
  {| devices := [stick001]; isAdmin := false; isActive := true;
     fcmToken := Some [] |}.

Definition emptyStore : Store := {| events := []; telemetry := [] |}.


Definition battery (level : Q) : Telemetry.Sensors :=
  {| Telemetry.ultrasonicLeft := RUndefined;
     Telemetry.ultrasonicRight := RUndefined;
     Telemetry.batteryLevel := RNum level;
     Telemetry.accelerometer := None |}.

Definition sonar (left right : Q) : Telemetry.Sensors :=
  {| Telemetry.ultrasonicLeft := RNum left;
     Telemetry.ultrasonicRight := RNum right;
     Telemetry.batteryLevel := RUndefined;
     Telemetry.accelerometer := None |}.

(** A request body of [POST /api/telemetry] with a GPS fix. *)
Definition telemetryBody (s : Telemetry.Sensors) (time : Z)
    : TelemetryController.Body :=
  {| TelemetryController.deviceId := stick001;
     TelemetryController.sensors := s;
     TelemetryController.gps := newYork;
     TelemetryController.timestamp := Some time |}.

(** An MQTT telemetry payload with a GPS fix. *)
Definition telemetryPayload (s : Telemetry.Sensors) (time : Z)
    : Telemetry.Telemetry :=
  {| Telemetry.deviceId := stick001; Telemetry.timestamp := time;
     Telemetry.sensors := s; Telemetry.gps := newYork |}.

(** A parameter with its value passed through [sanitizeText]. *)
Definition sanitizeEntry (kv : jsstring * jsval) : jsstring * jsval :=
  (fst kv, Validators.sanitizeText (snd kv)).

(** The number of incidents of a type and device in the store. *)
Definition count (ty : EventType) (device : jsstring) (st : Store) : nat :=
  List.length
    (filter (fun e => type_is e.(type) ty
                      && jsstring_eqb e.(Event.deviceId) device)
       st.(events)).

End Sample.

(** ** [server/mqtt/mqttClient.js]: topics and the dispatch of messages *)

Module Router.

(** The handlers [setupSubscriptions] binds. *)
Inductive Handler :=
| SonarData | IRData | GPSData | IMUData
| TelemetryMessage | SOSMessage | StatusMessage | ResponseMessage.

(** [s.split(sep)] for a one-character separator: never empty, the empty
    string gives one empty part. *)
Fixpoint split (sep : N) (s : jsstring) : list jsstring :=
  match s with
  | [] => [[]]
  | c :: s' =>
      if (c =? sep)%N then [] :: split sep s'
      else match split sep s' with
           | part :: rest => (c :: part) :: rest
           | [] => [[c]]
           end
  end.

(** [parts.join(sep)]. *)
Fixpoint join (sep : N) (parts : list jsstring) : jsstring :=
  match parts with
  | [] => []
  | [part] => part
  | part :: rest => part ++ sep :: join sep rest
  end.

(** The code unit of the slash. *)
Definition slash : N := 47.

Definition plus : jsstring := lit "+".

(** The loop of [topicMatches] over the parts of the pattern; a topic part
    that is missing is [undefined] and equals no pattern part. *)
Fixpoint partsMatch (patternParts topicParts : list jsstring) : bool :=
  match patternParts with
  | [] => true
  | p :: ps =>
      match topicParts with
      | t :: ts =>
          if negb (jsstring_eqb p plus) && negb (jsstring_eqb p t) then false
          else partsMatch ps ts
      | [] =>
          if negb (jsstring_eqb p plus) then false else partsMatch ps []
      end
  end.

(** [topicMatches(topic, pattern)]. *)
Definition topicMatches (topic pattern : jsstring) : bool :=
  let topicParts := split slash topic in
  let patternParts := split slash pattern in
  if negb (List.length topicParts =? List.length patternParts)%nat then false
  else partsMatch patternParts topicParts.

(** [extractDeviceId(topic)]: [parts[1]], [None] when there is no second
    part. *)
Definition extractDeviceId (topic : jsstring) : option jsstring :=
  nth_error (split slash topic) 1.

(** [Map.prototype.set]: a known key keeps its place and takes the new
    value, a new key comes last. *)
Fixpoint mapSet (m : list (jsstring * Handler)) (k : jsstring) (h : Handler)
    : list (jsstring * Handler) :=
  match m with
  | [] => [(k, h)]
  | (k', h') :: m' =>
      if jsstring_eqb k' k then (k, h) :: m' else (k', h') :: mapSet m' k h
  end.

(** [Set.prototype.add]. *)
Definition setAdd (s : list jsstring) (k : jsstring) : list jsstring :=
  if existsb (jsstring_eqb k) s then s else s ++ [k].

Record State := {
  connected : bool;
  subscriptions : list jsstring;
  messageHandlers : list (jsstring * Handler)
}.

Section Broker.

(** Whether the broker grants the subscription to a topic. *)
Variable granted : jsstring -> bool.

(** [subscribe(topic, handler)]: [None] when the promise is rejected. *)
Definition subscribe (st : State) (topic : jsstring) (handler : option Handler)
    : option State :=
  if negb st.(connected) then None
  else if granted topic then
    Some {| connected := st.(connected);
            subscriptions := setAdd st.(subscriptions) topic;
            messageHandlers :=
              match handler with
              | Some h => mapSet st.(messageHandlers) topic h
              | None => st.(messageHandlers)
              end |}
  else None.

(** The subscriptions of [setupSubscriptions], in the order of the
    source. *)
Definition defaultSubscriptions : list (jsstring * Handler) :=
  [(lit "smartstick/+/sensors/sonar", SonarData);
   (lit "smartstick/+/sensors/ir", IRData);
   (lit "smartstick/+/sensors/gps", GPSData);
   (lit "smartstick/+/sensors/imu", IMUData);
   (lit "smartstick/+/telemetry", TelemetryMessage);
   (lit "smartstick/+/sos", SOSMessage);
   (lit "smartstick/+/status", StatusMessage);
   (lit "smartstick/+/response", ResponseMessage)].

(** [setupSubscriptions()]: the [await]s in one [try]; the first rejected
    subscription ends the sequence and what was bound before stays. *)
Fixpoint subscribeAll (st : State) (l : list (jsstring * Handler)) : State :=
  match l with
  | [] => st
  | (topic, h) :: rest =>
      match subscribe st topic (Some h) with
      | Some st' => subscribeAll st' rest
      | None => st
      end
  end.

Definition setupSubscriptions (st : State) : State :=
  subscribeAll st defaultSubscriptions.

End Broker.

(** [handleMessage(topic, message)]: the handler of the first pattern, in
    the order of the map, that the topic matches. *)
Fixpoint findHandler (handlers : list (jsstring * Handler)) (topic : jsstring)
    : option Handler :=
  match handlers with
  | [] => None
  | (pattern, h) :: rest =>
      if topicMatches topic pattern then Some h else findHandler rest topic
  end.

Definition handleMessage (st : State) (topic : jsstring) : option Handler :=
  findHandler st.(messageHandlers) topic.

(** The topic [sendCommand] publishes to: [`stick/${deviceId}/command`]. *)
Definition commandTopic (device : jsstring) : jsstring :=
  lit "stick/" ++ device ++ lit "/command".

End Router.

(** ** [server/mqtt/mqttClient.js]: [handleSOSMessage] *)

Module MQTTSOS.

Section Handler.

Variable users : list User.
Variable sendSOSNotification : list jsstring -> bool.

(** [handleSOSMessage(topic, message)]: [device] is
    [extractDeviceId(topic)], [gps] is [sosData.gps].  The result is the
    store and the tokens a push notification went to.  Whatever throws ends
    the handler in its [catch]. *)
Definition handleSOSMessage (st : Store) (device : jsstring)
    (gps : option Gps) (now : Z) : Store * list jsstring :=
  match createSOSEvent device gps (JStr (lit "button_press")) now with
  | None => (st, [])
  | Some sosEvent =>
      match findUsersWithFCMByDevice users device with
      | [] => (add_events st [sosEvent], [])
      | found =>
          match fcmTokens found with
          | [] => (add_events st [sosEvent], [])
          | tokens =>
              let sent :=
                with_notifications sosEvent
                  {| fcmSent := sendSOSNotification tokens;
                     fcmTimestamp := Some now |} in
              match save sent with
              | Some stored => (add_events st [stored], tokens)
              | None => (add_events st [sosEvent], tokens)
              end
          end
      end
  end.

End Handler.

End MQTTSOS.

(** ** [server/models/Event.js] and [server/controllers/sosController.js]:
    the rest of the incident handlers *)

Module Incident.

(** The virtual [isResolved]: the status is resolved and the resolution has
    its date. *)
Definition isResolved (e : Event) : bool :=
  status_is e.(status) resolved
  && match e.(resolution).(resolvedAt) with Some _ => true | None => false end.

(** [acknowledgeSOS]. *)
Definition acknowledgeSOS (eventId : jsstring) (found : option Event)
    (caller : option User) (userId : ObjectId) (note : jsstring) (now : Z)
    : SOSController.Response * option Event :=
  match SOSController.guard eventId found caller, found with
  | Some code, _ => (SOSController.respond code false, None)
  | None, None => (SOSController.respond 404 false, None)
  | None, Some sosEvent =>
      match save (acknowledge sosEvent userId
                    (Validators.sanitizeString note) now) with
      | Some stored => (SOSController.respond 200 true, Some stored)
      | None => (SOSController.respond 500 false, None)
      end
  end.

(** [getSOSEvent]: the answer and, with 200, the incident in its body. *)
Definition getSOSEvent (eventId : jsstring) (found : option Event)
    (caller : option User) : SOSController.Response * option Event :=
  match SOSController.guard eventId found caller, found with
  | Some code, _ => (SOSController.respond code false, None)
  | None, None => (SOSController.respond 404 false, None)
  | None, Some sosEvent => (SOSController.respond 200 true, Some sosEvent)
  end.

End Incident.

(** ** Queries: [sort({ timestamp: -1 })], [skip], [limit] *)

Module Pagination.

(** [sort({ timestamp: -1 })]: newest first; documents of equal timestamp
    stay in the order of the collection. *)
Fixpoint insertDesc (A : Type) (key : A -> Z) (x : A) (l : list A) : list A :=
  match l with
  | [] => [x]
  | y :: l' =>
      if (key y <=? key x)%Z then x :: l else y :: insertDesc key x l'
  end.

Definition sortDesc (A : Type) (key : A -> Z) (l : list A) : list A :=
  fold_right (insertDesc key) [] l.

(** [Math.ceil(totalCount / limit)]. *)
Definition ceilDiv (n : nat) (d : positive) : nat :=
  if (n mod Pos.to_nat d =? 0)%nat then (n / Pos.to_nat d)%nat
  else S (n / Pos.to_nat d).

(** [.skip((page - 1) * limit).limit(limit)] for a page and a limit of at
    least 1. *)
Definition slice (A : Type) (l : list A) (page limit : positive) : list A :=
  firstn (Pos.to_nat limit)
    (skipn ((Pos.to_nat page - 1) * Pos.to_nat limit) l).

(** The [pagination] object of an answer. *)
Record Info := {
  currentPage : positive;
  totalPages : nat;
  totalCount : nat;
  hasNext : bool;
  hasPrev : bool
}.

Definition info (count : nat) (page limit : positive) : Info :=
  {| currentPage := page;
     totalPages := ceilDiv count limit;
     totalCount := count;
     hasNext := (Pos.to_nat page <? ceilDiv count limit)%nat;
     hasPrev := (1 <? Pos.to_nat page)%nat |}.

(** A query parameter that is missing or the empty string is falsy. *)
Definition provided (o : option jsstring) : option jsstring :=
  match o with
  | Some (c :: s) => Some (c :: s)
  | _ => None
  end.

(** [query.timestamp] built from [startTime] and [endTime], parsed where
    the request has them. *)
Definition inTimeRange (startTime endTime : option Z) (t : Z) : bool :=
  match startTime with Some s => (s <=? t)%Z | None => true end
  && match endTime with Some e => (t <=? e)%Z | None => true end.

End Pagination.

(** ** [server/controllers/sosController.js]: [getSOSEvents] *)

Module SOSQueries.

Definition statusName (s : Status) : jsstring :=
  match s with
  | active => lit "active"
  | acknowledged => lit "acknowledged"
  | resolved => lit "resolved"
  | ignored => lit "ignored"
  end.

(** The query string of [GET /api/sos]; [page] and [limit] are the parsed
    values, taken to be at least 1. *)
Record Query := {
  page : positive;
  limit : positive;
  status : option jsstring;
  deviceId : option jsstring;
  startTime : option Z;
  endTime : option Z
}.

(** The Mongo query: [type] is SOS; [deviceId] is among the caller's
    devices unless the caller is an administrator, and then equal to the
    [deviceId] of the query string when there is one, which replaces the
    first condition; [status] and [timestamp] as asked. *)
Definition matches (user : User) (q : Query) (e : Event) : bool :=
  type_is e.(type) SOS
  && match Pagination.provided q.(deviceId) with
     | Some d => jsstring_eqb e.(Event.deviceId) d
     | None =>
         if user.(isAdmin) then true
         else existsb (jsstring_eqb e.(Event.deviceId)) user.(devices)
     end
  && match Pagination.provided q.(status) with
     | Some s => jsstring_eqb (statusName e.(Event.status)) s
     | None => true
     end
  && Pagination.inTimeRange q.(startTime) q.(endTime) e.(timestamp).

(** [getSOSEvents]: the status and, with 200, [data] and [pagination]. *)
Definition getSOSEvents (st : Store) (caller : option User) (q : Query)
    : Z * list Event * option Pagination.Info :=
  match caller with
  | None => (404%Z, [], None)
  | Some user =>
      let found := filter (matches user q) st.(events) in
      (200%Z,
       Pagination.slice (Pagination.sortDesc timestamp found)
         q.(page) q.(limit),
       Some (Pagination.info (List.length found) q.(page) q.(limit)))
  end.

End SOSQueries.

(** ** [server/controllers/commandController.js]: [getCommandHistory] and
    [sendEmergencyCommands] *)

Module CommandHistory.

(** The Mongo query of [getCommandHistory]. *)
Definition matches (device : jsstring) (startTime endTime : option Z)
    (e : Event) : bool :=
  jsstring_eqb e.(Event.deviceId) device
  && (type_is e.(type) COMMAND_SENT || type_is e.(type) COMMAND_RECEIVED)
  && Pagination.inTimeRange startTime endTime e.(timestamp).

Definition getCommandHistory (st : Store) (device : jsstring)
    (caller : option User) (page limit : positive)
    (startTime endTime : option Z)
    : Z * list Event * option Pagination.Info :=
  if negb (Validators.isValidDeviceId device) then (400%Z, [], None)
  else match caller with
  | None => (404%Z, [], None)
  | Some user =>
      if negb (ownsDevice user device || user.(isAdmin)) then (403%Z, [], None)
      else
        let found := filter (matches device startTime endTime) st.(events) in
        (200%Z,
         Pagination.slice (Pagination.sortDesc timestamp found) page limit,
         Some (Pagination.info (List.length found) page limit))
  end.

End CommandHistory.

Module Emergency.

(** The document [sendEmergencyCommands] hands to [Event.create] as the
    log of a command: as the one of [sendCommand], with severity high. *)
Definition commandLog (device : jsstring) (user : ObjectId) (cmd : jsstring)
    (parameters : list (jsstring * jsval)) (now : Z) : Event :=
  {| type := COMMAND_SENT; deviceId := device; userId := Some user;
     timestamp := now; severity := high; status := active; location := None;
     metadata :=
       {| emergencyType := JUndefined; alertThreshold := None;
          alertValue := RUndefined; command := Some cmd;
          commandParameters := Some parameters |};
     notifications := noNotifications; resolution := noResolution;
     escalation := noEscalation; acknowledgments := [] |}.

(** The three commands of the bundle, with [intensity] and [duration] of
    the body ("high" and 10 when the body has none). *)
Definition commands (intensity duration : jsval)
    : list (jsstring * list (jsstring * jsval)) :=
  let intensity' :=
    match intensity with JUndefined => JStr (lit "high") | v => v end in
  let duration' :=
    match duration with JUndefined => JNum 10 | v => v end in
  [(lit "led_on",
    [(lit "pattern", JStr (lit "emergency")); (lit "duration", duration')]);
   (lit "vibrate",
    [(lit "intensity", intensity'); (lit "duration", duration')]);
   (lit "beep",
    [(lit "pattern", JStr (lit "emergency")); (lit "duration", duration')])].

(** One entry of [data.commands]. *)
Record CommandResult := {
  command : jsstring;
  sent : bool
}.

Record Response := {
  httpStatus : Z;
  success : bool;
  results : list CommandResult;
  successCount : nat;
  totalCommands : nat
}.

Definition respond (code : Z) : Response :=
  {| httpStatus := code; success := false; results := [];
     successCount := 0; totalCommands := 0 |}.

Section Bundle.

(** Whether the client is connected, and whether the broker takes the
    message of a command of the bundle. *)
Variable connected : bool.
Variable published : jsstring -> bool.
Variable generateMessageId : jsstring -> jsstring.

(** The body of the loop: the dispatch, its entry in [results], then the
    log incident whatever the dispatch gave; a rejected log adds a failure
    entry of its own. *)
Definition step (device : jsstring) (userId : ObjectId) (now : Z)
    (acc : list CommandResult * Store * list MQTTClient.CommandMessage.t)
    (c : jsstring * list (jsstring * jsval))
    : list CommandResult * Store * list MQTTClient.CommandMessage.t :=
  let '(res, st, sent0) := acc in
  let '(cmd, parameters) := c in
  let '(result, st1, out) :=
    MQTTClient.sendCommand connected (fun _ => published cmd)
      generateMessageId st device cmd parameters now in
  let res1 :=
    res ++ [{| command := cmd; sent := result.(MQTTClient.success) |}] in
  match create (commandLog device userId cmd parameters now) with
  | Some stored => (res1, add_events st1 [stored], sent0 ++ out)
  | None => (res1 ++ [{| command := cmd; sent := false |}], st1, sent0 ++ out)
  end.

(** [sendEmergencyCommands]: the answer, the store afterwards and the
    messages published. *)
Definition sendEmergencyCommands (st : Store) (device : jsstring)
    (caller : option User) (userId : ObjectId) (intensity duration : jsval)
    (now : Z) : Response * Store * list MQTTClient.CommandMessage.t :=
  if negb (Validators.isValidDeviceId device) then (respond 400, st, [])
  else match caller with
  | None => (respond 404, st, [])
  | Some user =>
    if negb (ownsDevice user device || user.(isAdmin)) then
      (respond 403, st, [])
    else if negb connected then (respond 503, st, [])
    else
      let '(res, st1, out) :=
        fold_left (step device userId now) (commands intensity duration)
          ([], st, []) in
      let n := List.length (filter sent res) in
      ({| httpStatus := if (0 <? n)%nat then 200 else 500;
          success := (0 <? n)%nat;
          results := res;
          successCount := n;
          totalCommands := List.length (commands intensity duration) |}, st1,
       out)
  end.

End Bundle.

End Emergency.

(** ** [server/controllers/telemetryController.js]: reading records back *)

Module TelemetryQueries.








End TelemetryQueries.

(** ** Accounts: the user model and [server/controllers/userController.js]

    [User] above keeps what the SOS path reads of a user.  The account
    handlers read and write the fields below. *)

Module Account.

(** An entry of [devices]. *)
Record Device := {
  deviceId : jsstring;
  name : jsstring;
  isActive : bool;
  addedAt : Z;
  lastSeen : Z
}.

Record Account := {
  _id : ObjectId;
  devices : list Device;
  fcmToken : option jsstring;
  isAdmin : bool;
  (** [isActive] of the user. *)
  active : bool;
  lastLogin : option Z;
  loginAttempts : Z;
  accountLocked : bool;
  lockUntil : option Z
}.

Definition with_devices (u : Account) (l : list Device) : Account :=
  {| _id := u.(_id); devices := l; fcmToken := u.(fcmToken);
     isAdmin := u.(isAdmin); active := u.(active);
     lastLogin := u.(lastLogin); loginAttempts := u.(loginAttempts);
     accountLocked := u.(accountLocked); lockUntil := u.(lockUntil) |}.

Definition with_fcmToken (u : Account) (token : option jsstring) : Account :=
  {| _id := u.(_id); devices := u.(devices); fcmToken := token;
     isAdmin := u.(isAdmin); active := u.(active);
     lastLogin := u.(lastLogin); loginAttempts := u.(loginAttempts);
     accountLocked := u.(accountLocked); lockUntil := u.(lockUntil) |}.

(** The fields the login counters write. *)
Definition with_login (u : Account) (last : option Z) (attempts : Z)
    (locked : bool) (until : option Z) : Account :=
  {| _id := u.(_id); devices := u.(devices); fcmToken := u.(fcmToken);
     isAdmin := u.(isAdmin); active := u.(active);
     lastLogin := last; loginAttempts := attempts;
     accountLocked := locked; lockUntil := until |}.

(** Two hours, the length of a lock. *)
Definition lockTime : Z := 2 * 60 * 60 * 1000.

(** The virtual [isLocked]:
    [!!(this.lockUntil && this.lockUntil > Date.now())]. *)
Definition isLocked (u : Account) (now : Z) : bool :=
  match u.(lockUntil) with
  | Some t => (now <? t)%Z
  | None => false
  end.

(** [incLoginAttempts()]: a lock that has expired restarts the count at 1;
    otherwise the count goes up by one, and the fifth attempt of an account
    that is not locked sets the lock. *)
Definition incLoginAttempts (u : Account) (now : Z) : Account :=
  let expired :=
    match u.(lockUntil) with
    | Some t => (t <? now)%Z
    | None => false
    end in
  if expired then with_login u u.(lastLogin) 1 u.(accountLocked) None
  else if (5 <=? u.(loginAttempts) + 1)%Z && negb (isLocked u now) then
    with_login u u.(lastLogin) (u.(loginAttempts) + 1) true
      (Some (now + lockTime)%Z)
  else
    with_login u u.(lastLogin) (u.(loginAttempts) + 1) u.(accountLocked)
      u.(lockUntil).

(** [resetLoginAttempts()]. *)
Definition resetLoginAttempts (u : Account) (now : Z) : Account :=
  with_login u (Some now) 0 false None.

(** [save()]: an entry of [devices] needs a [deviceId] that is not
    empty. *)
Definition save (u : Account) : option Account :=
  if forallb (fun device =>
                match device.(deviceId) with [] => false | _ => true end)
       u.(devices)
  then Some u else None.

Definition hasDevice (u : Account) (d : jsstring) : bool :=
  existsb (fun device => jsstring_eqb device.(deviceId) d) u.(devices).

(** [existingDevice.isActive = true; existingDevice.lastSeen = new Date()]
    on the entry [devices.find] returns, the first with that id. *)
Fixpoint touch (d : jsstring) (now : Z) (l : list Device) : list Device :=
  match l with
  | [] => []
  | device :: rest =>
      if jsstring_eqb device.(deviceId) d then
        {| deviceId := device.(deviceId); name := device.(name);
           isActive := true; addedAt := device.(addedAt);
           lastSeen := now |} :: rest
      else device :: touch d now rest
  end.

(** [addDevice(deviceId, deviceName)]; the schema trims the id of an entry
    that is pushed. *)
Definition addDevice (u : Account) (d deviceName : jsstring) (now : Z)
    : option Account :=
  if hasDevice u d then save (with_devices u (touch d now u.(devices)))
  else
    save (with_devices u
            (u.(devices)
             ++ [{| deviceId := trim d; name := deviceName; isActive := true;
                    addedAt := now; lastSeen := now |}])).

(** [removeDevice(deviceId)]. *)
Definition removeDevice (u : Account) (d : jsstring) : option Account :=
  save (with_devices u
          (filter (fun device => negb (jsstring_eqb device.(deviceId) d))
             u.(devices))).

(** [User.findById(id)]. *)
Definition findById (db : list Account) (id : ObjectId) : option Account :=
  find (fun u => jsstring_eqb u.(_id) id) db.

(** [findByDeviceId(deviceId)]:
    [findOne({ "devices.deviceId": deviceId, isActive: true })]. *)
Definition findByDeviceId (db : list Account) (d : jsstring)
    : option Account :=
  find (fun u => hasDevice u d && u.(active)) db.

(** The collection after the document [u] has been saved. *)
Definition store (db : list Account) (u : Account) : list Account :=
  map (fun v => if jsstring_eqb v.(_id) u.(_id) then u else v) db.

End Account.

Module UserController.

(** [login], from the account [User.findOne] returns for the email on:
    [passwordValid] is the answer of [comparePassword], [token] the
    [fcmToken] of the body, which [user.save()] writes when it is truthy
    and differs from the stored one.  The HTTP status and the account
    afterwards. *)
Definition login (user : Account.Account) (passwordValid : bool)
    (token : option jsstring) (now : Z) : Z * Account.Account :=
  if Account.isLocked user now then (423%Z, user)
  else if negb passwordValid then
    (401%Z, Account.incLoginAttempts user now)
  else
    let user1 := Account.resetLoginAttempts user now in
    let changed :=
      match token with
      | Some (c :: s) =>
          match user.(Account.fcmToken) with
          | Some old => negb (jsstring_eqb (c :: s) old)
          | None => true
          end
      | _ => false
      end in
    if changed then
      match Account.save (Account.with_fcmToken user1 token) with
      | Some saved => (200%Z, saved)
      | None => (500%Z, user1)
      end
    else (200%Z, user1).

(** [addDevice]: [caller] is [req.user.userId], [deviceName] the name of
    the body when it has a truthy one.  The HTTP status and the collection
    afterwards. *)
Definition addDevice (db : list Account.Account) (caller : ObjectId)
    (deviceId : jsstring) (deviceName : option jsstring) (now : Z)
    : Z * list Account.Account :=
  if negb (Validators.isValidDeviceId deviceId) then (400%Z, db)
  else
    match Account.findById db caller with
    | None => (404%Z, db)
    | Some user =>
        let taken :=
          match Account.findByDeviceId db deviceId with
          | Some existingUser =>
              negb (jsstring_eqb existingUser.(Account._id)
                      user.(Account._id))
          | None => false
          end in
        if taken then (409%Z, db)
        else
          match Account.addDevice user (Validators.sanitizeString deviceId)
                  (match deviceName with
                   | Some n => Validators.sanitizeString n
                   | None => lit "Smart Stick"
                   end) now with
          | Some saved => (201%Z, Account.store db saved)
          | None => (500%Z, db)
          end
    end.

(** [removeDevice]. *)
Definition removeDevice (db : list Account.Account) (caller : ObjectId)
    (deviceId : jsstring) : Z * list Account.Account :=
  match Account.findById db caller with
  | None => (404%Z, db)
  | Some user =>
      if negb (Account.hasDevice user deviceId) then (404%Z, db)
      else
        match Account.removeDevice user deviceId with
        | Some saved => (200%Z, Account.store db saved)
        | None => (500%Z, db)
        end
  end.

End UserController.

(** * Properties *)

(** ** Strings and comparisons *)

Lemma jsstring_eqb_eq (a b : jsstring) : jsstring_eqb a b = true <-> a = b.
Proof.
  unfold jsstring_eqb. destruct (list_eq_dec N.eq_dec a b); split; congruence.
Qed.

Lemma jsstring_eqb_refl (a : jsstring) : jsstring_eqb a a = true.
Proof. now apply jsstring_eqb_eq. Qed.

Lemma jsstring_eqb_neq (a b : jsstring) : jsstring_eqb a b = false <-> a <> b.
Proof.
  unfold jsstring_eqb. destruct (list_eq_dec N.eq_dec a b); split; congruence.
Qed.

Lemma Qltb_lt (x y : Q) : Qltb x y = true <-> (x < y)%Q.
Proof.
  unfold Qltb. rewrite negb_true_iff.
  destruct (Qle_bool y x) eqn:E.
  - apply Qle_bool_iff in E. split; [discriminate|].
    intro H. exfalso. exact (Qlt_not_le _ _ H E).
  - split; [intros _|reflexivity].
    apply Qnot_le_lt. intro H. apply Qle_bool_iff in H. congruence.
Qed.

Lemma Qltb_ge (x y : Q) : Qltb x y = false <-> (y <= x)%Q.
Proof.
  unfold Qltb. rewrite negb_false_iff. apply Qle_bool_iff.
Qed.

(** ** Incident lifecycle *)

Section Lifecycle.

Import Sample.

Lemma validEvent_acknowledge (e : Event) (u : ObjectId) (n : jsstring) (now : Z) :
  validEvent (acknowledge e u n now) = validEvent e.
Proof.
  unfold acknowledge.
  destruct (isAcknowledged e); simpl; [reflexivity|].
  destruct (status_is (status e) active); reflexivity.
Qed.

Lemma acknowledge_acknowledged (e : Event) (u : ObjectId) (n : jsstring) (now : Z) :
  isAcknowledged e = true -> acknowledge e u n now = e.
Proof. intros H. unfold acknowledge. now rewrite H. Qed.

Lemma isAcknowledged_acknowledge (e : Event) (u : ObjectId) (n : jsstring) (now : Z) :
  isAcknowledged (acknowledge e u n now) = true.
Proof.
  unfold acknowledge.
  destruct (isAcknowledged e) eqn:E; simpl; [exact E|].
  destruct (status_is (status e) active); unfold isAcknowledged; simpl;
    destruct (acknowledgments e); reflexivity.
Qed.

(** C3, as the claim states it, fails: two [acknowledge] calls on a fresh
    active incident leave one entry in the list, not two, because the
    method appends only while [isAcknowledged] is false. *)
Lemma acknowledge_twice_counterexample :
  let e1 := acknowledge sos alice (lit "on my way") 2000 in
  let e2 := acknowledge e1 bob (lit "me too") 3000 in
  save e1 = Some e1 /\ save e2 = Some e2
  /\ acknowledgments e2
     = [{| acknowledgedBy := alice; acknowledgedAt := 2000%Z;
           note := lit "on my way" |}]
  /\ List.length (acknowledgments e2) <> 2%nat.
Proof. vm_compute. repeat split; discriminate. Qed.

(** C3, amended: on an incident that has no acknowledgment yet, the first
    [acknowledge] appends one entry, moves an active incident to
    acknowledged and leaves any other status as it is, and is saved; a
    second [acknowledge] changes nothing, so the list keeps its single
    entry and the status stays as the first call left it. *)
Theorem acknowledge_first_appends_second_is_noop
    (e : Event) (u1 u2 : ObjectId) (n1 n2 : jsstring) (t1 t2 : Z) :
  validEvent e = true ->
  acknowledgments e = [] ->
  let e1 := acknowledge e u1 n1 t1 in
  let e2 := acknowledge e1 u2 n2 t2 in
  save e1 = Some e1
  /\ acknowledgments e1
     = [{| acknowledgedBy := u1; acknowledgedAt := t1; note := n1 |}]
  /\ status e1 = (if status_is (status e) active then acknowledged else status e)
  /\ e2 = e1.
Proof.
  intros Hv Ha e1 e2.
  assert (He1 : e1 = (let e' := with_acknowledgments e
                        [{| acknowledgedBy := u1; acknowledgedAt := t1;
                            note := n1 |}] in
                      if status_is (status e) active
                      then with_status e' acknowledged else e')).
  { unfold e1, acknowledge, isAcknowledged. rewrite Ha. reflexivity. }
  repeat split.
  - unfold save. unfold e1. rewrite validEvent_acknowledge, Hv. reflexivity.
  - rewrite He1. simpl. destruct (status_is (status e) active); reflexivity.
  - rewrite He1. simpl. destruct (status_is (status e) active); reflexivity.
  - unfold e2. apply acknowledge_acknowledged.
    apply isAcknowledged_acknowledge.
Qed.

Lemma acknowledge_first_appends_second_is_noop_witness :
  let e1 := acknowledge sos alice (lit "on my way") 2000 in
  let e2 := acknowledge e1 bob (lit "me too") 3000 in
  validEvent sos = true /\ acknowledgments sos = []
  /\ save e1 = Some e1
  /\ acknowledgments e1
     = [{| acknowledgedBy := alice; acknowledgedAt := 2000%Z;
           note := lit "on my way" |}]
  /\ status e1 = acknowledged
  /\ e2 = e1.
Proof.
  pose proof (@acknowledge_first_appends_second_is_noop sos alice bob
                (lit "on my way") (lit "me too") 2000 3000
                eq_refl eq_refl) as H.
  split; [reflexivity|]. split; [reflexivity|]. exact H.
Defined.

(** *** Resolution *)

Lemma validEvent_resolve (e : Event) (u : ObjectId) (n : jsstring)
    (acts : list jsstring) (now : Z) :
  validEvent e = true -> (List.length n <= 500)%nat ->
  validEvent (resolve e u n acts now) = true.
Proof.
  unfold validEvent. intros H Hn. simpl.
  rewrite !andb_true_iff in *.
  destruct H as [[[[[H1 H2] H3] H4] _] H6].
  repeat split; try assumption.
  unfold validResolution. simpl. now apply Nat.leb_le.
Qed.

(** C2, as the claim states it, fails: a second [resolveSOS] on an
    incident that is already resolved is answered with 200, not with a
    conflict (409), and the resolution record of the first call is
    replaced by the one of the second. *)
Lemma resolve_twice_counterexample :
  let first := resolve sos alice (lit "first") [lit "called"] 2000 in
  exists reply second,
    SOSController.resolveSOS sosId (Some first) (Some admin) bob
      (lit "second") [] 3000 = (reply, Some second)
    /\ status first = resolved
    /\ SOSController.httpStatus reply = 200%Z
    /\ SOSController.httpStatus reply <> 409%Z
    /\ resolution second <> resolution first
    /\ resolvedBy (resolution second) = Some bob
    /\ resolvedAt (resolution second) = Some 3000%Z.
Proof.
  intro first. do 2 eexists. split; [reflexivity|].
  vm_compute. repeat split; discriminate.
Qed.

(** C2, amended: resolving is not terminal.  Whatever the status of the
    incident, and so also when it is already resolved, a [resolveSOS] call
    that passes the access checks and whose sanitized note is at most 500
    long is answered with 200; afterwards the status is resolved and the
    resolution record is the one of this call (resolver, note, one entry
    per action in order, time of the call), which replaces any earlier
    record. *)
Theorem resolve_overwrites_resolution
    (eventId : jsstring) (e : Event) (caller : option User) (u : ObjectId)
    (n : jsstring) (acts : list jsstring) (now : Z) :
  SOSController.guard eventId (Some e) caller = None ->
  validEvent e = true ->
  (List.length (Validators.sanitizeString n) <= 500)%nat ->
  exists e',
    SOSController.resolveSOS eventId (Some e) caller u n acts now
    = (SOSController.respond 200 true, Some e')
    /\ status e' = resolved
    /\ resolution e'
       = {| resolvedAt := Some now;
            resolvedBy := Some u;
            resolutionNote := Validators.sanitizeString n;
            resolutionActions :=
              map (fun a => {| action := Validators.sanitizeString a;
                               actionTimestamp := now;
                               performedBy := u |}) acts |}.
Proof.
  intros Hg Hv Hn.
  eexists. unfold SOSController.resolveSOS. rewrite Hg.
  unfold save. rewrite (validEvent_resolve _ _ _ _ _ Hv Hn).
  split; [reflexivity|]. split; [reflexivity|].
  simpl. now rewrite map_map.
Qed.

Lemma resolve_overwrites_resolution_witness :
  let first := resolve sos alice (lit "first") [lit "called"] 2000 in
  exists e',
    SOSController.resolveSOS sosId (Some first) (Some admin) bob
      (lit "second") [lit "visited"] 3000
    = (SOSController.respond 200 true, Some e')
    /\ status e' = resolved
    /\ resolution e'
       = {| resolvedAt := Some 3000%Z;
            resolvedBy := Some bob;
            resolutionNote := Validators.sanitizeString (lit "second");
            resolutionActions :=
              map (fun a => {| action := Validators.sanitizeString a;
                               actionTimestamp := 3000%Z;
                               performedBy := bob |}) [lit "visited"] |}.
Proof.
  intro first.
  apply (@resolve_overwrites_resolution sosId first (Some admin) bob
           (lit "second") [lit "visited"] 3000).
  - reflexivity.
  - reflexivity.
  - vm_compute. lia.
Defined.

End Lifecycle.

(** ** Escalation *)

Section Escalation.

Import Sample.

(** For a level of at least 1 the method does what the schema asks: the
    record is replaced as a whole, [escalated] is set, and the level is the
    supplied one capped at 5, which the validator of [save] accepts. *)
Lemma escalate_level_from_one (e : Event) (target : option ObjectId)
    (reason : jsstring) (level now : Z) :
  validEvent e = true ->
  (1 <= level)%Z ->
  let e' := escalate e target reason level now in
  save e' = Some e'
  /\ escalation e'
     = {| escalated := true; escalatedAt := Some now; escalatedTo := target;
          escalationReason := reason; escalationLevel := Z.min level 5 |}
  /\ (1 <= escalationLevel (escalation e') <= 5)%Z.
Proof.
  intros Hv Hl e'. split; [|split].
  - unfold save.
    assert (validEvent e' = true) as ->; [|reflexivity].
    unfold validEvent in *. simpl.
    rewrite !andb_true_iff in *.
    destruct Hv as [[[[[H1 H2] H3] H4] H5] _].
    repeat split; try assumption.
    unfold validEscalation. simpl.
    apply andb_true_iff. split; apply Z.leb_le; lia.
  - reflexivity.
  - simpl. lia.
Qed.

(** Below 1 nothing raises the level: [Math.min(level, 5)] is the level
    itself, and the validator of [save] rejects the document. *)
Lemma escalate_level_below_one (e : Event) (target : option ObjectId)
    (reason : jsstring) (level now : Z) :
  (level < 1)%Z ->
  let e' := escalate e target reason level now in
  escalationLevel (escalation e') = level /\ save e' = None.
Proof.
  intros Hl e'. split.
  - simpl. lia.
  - unfold save.
    assert (validEvent e' = false) as ->; [|reflexivity].
    unfold validEvent. simpl.
    assert (validEscalation
              {| escalated := true; escalatedAt := Some now;
                 escalatedTo := target; escalationReason := reason;
                 escalationLevel := Z.min level 5 |} = false) as ->.
    { unfold validEscalation. simpl.
      apply andb_false_iff. left. apply Z.leb_gt. lia. }
    apply andb_false_r.
Qed.

(** C7 at the failing input: [escalate] with level 0 on the active SOS
    incident of [stick-001].  The method leaves [escalationLevel] at 0,
    outside [1,5]; [save] rejects the document, [escalateSOS] answers 500
    and nothing is stored, so the stored record still says
    [escalated = false]. *)
Theorem escalate_level_zero_not_clamped :
  let e' := escalate sos (Some bob) (lit "no answer") 0 3000 in
  escalationLevel (escalation e') = 0%Z
  /\ save e' = None
  /\ SOSController.escalateSOS sosId (Some sos) (Some admin) (Some bob)
       (lit "no answer") 0 3000
     = (SOSController.respond 500 false, None)
  /\ escalated (escalation sos) = false.
Proof. vm_compute. repeat split. Qed.

End Escalation.

(** ** SOS reception *)

Section SOSReception.

Import Sample.

Variable users : list User.
Variable sendSOSNotification : list jsstring -> bool.

Lemma create_Some (e stored : Event) :
  create e = Some stored -> stored = with_deviceId e (trim (deviceId e)).
Proof.
  unfold create, save. destruct (validEvent _); congruence.
Qed.

(** A document handed to [Event.create] without location is rejected. *)
Lemma create_without_location (e : Event) :
  location e = None -> create e = None.
Proof.
  intros H. unfold create, save, validEvent. simpl. rewrite H. simpl.
  now rewrite andb_false_r.
Qed.

(** When the body of [POST /api/sos] and the SOS incident pass validation
    and no recipient token is found for the device, the request leaves the
    incident in the store with status active.  When the user lookup finds
    nobody the answer is 200 and has no [notificationsSent]; when it finds
    users of which none holds a non-empty token the answer is 201 with
    [notificationsSent] 0. *)
Lemma receiveSOS_without_recipients
    (device : jsstring) (gps : option Gps) (emergency : jsval) (now : Z)
    (sosEvent : Event) :
  Validators.validateSOS device gps = true ->
  createSOSEvent (Validators.sanitizeString (trim device)) gps
    (match emergency with JUndefined => JStr (lit "manual") | _ => emergency end)
    now = Some sosEvent ->
  fcmTokens (findUsersWithFCMByDevice users (trim device)) = [] ->
  exists reply,
    Routes.postSOS users sendSOSNotification device gps emergency now
    = (reply, Some sosEvent)
    /\ type sosEvent = SOS
    /\ status sosEvent = active
    /\ SOSController.success reply = true
    /\ match findUsersWithFCMByDevice users (trim device) with
       | [] => SOSController.httpStatus reply = 200%Z
               /\ SOSController.notificationsSent reply = None
       | _ :: _ => SOSController.httpStatus reply = 201%Z
                   /\ SOSController.notificationsSent reply = Some 0%nat
       end.
Proof.
  intros Hv Hc Ht. unfold Routes.postSOS, SOSController.receiveSOS.
  rewrite Hv, Hc.
  apply create_Some in Hc. subst sosEvent.
  destruct (findUsersWithFCMByDevice users (trim device)) as [|u found] eqn:Ef.
  - eexists. repeat split.
  - rewrite Ht. eexists. repeat split.
Qed.

(** The guard of [createSOSEvent] on the [gps] of the request:
    [location && location.lat && location.lon]. *)
Let located (gps : option Gps) : bool :=
  match gps with
  | Some g => rtruthy (lat g) && rtruthy (lon g)
  | None => false
  end.

Lemma sosEventData_location (device : jsstring) (gps : option Gps)
    (emergency : jsval) (now : Z) :
  located gps = false ->
  location (sosEventData device gps emergency now) = None.
Proof.
  unfold located. destruct gps as [g|]; [|reflexivity].
  simpl. now intros ->.
Qed.

(** C10: an SOS whose [gps] is missing, or has a [lat] or [lon] that is 0,
    [null] or missing, is not recorded without its location: it is not
    recorded at all.  [createSOSEvent] leaves the location out and hands
    the document to [Event.create], which rejects a document without
    coordinates; [POST /api/sos] answers 400 and stores no incident,
    whoever is registered for the device. *)
Theorem createSOSEvent_without_coordinates_rejected
    (device : jsstring) (gps : option Gps) (emergency : jsval) (now : Z) :
  match gps with
  | Some g => rtruthy (lat g) && rtruthy (lon g)
  | None => false
  end = false ->
  location (sosEventData device gps emergency now) = None
  /\ createSOSEvent device gps emergency now = None
  /\ Routes.postSOS users sendSOSNotification device gps emergency now
     = (SOSController.respond 400 false, None).
Proof.
  intros Hg. fold (located gps) in Hg.
  assert (Hc : forall d e,
             createSOSEvent d gps e now = None).
  { intros d e. apply create_without_location.
    now apply sosEventData_location. }
  split; [now apply sosEventData_location|]. split; [apply Hc|].
  unfold Routes.postSOS, SOSController.receiveSOS.
  destruct (Validators.validateSOS device gps); [|reflexivity].
  now rewrite Hc.
Qed.

End SOSReception.

(** C4 at the failing input, the scenario of the specification with no
    user registered for the device: [POST /api/sos] creates the active
    incident and is answered with 200 and a body without
    [notificationsSent], where the claim, and the test of the repository
    that posts an SOS without registering anybody, expect 201. *)
Theorem receiveSOS_no_users_answers_200 :
  exists reply,
    Routes.postSOS [] (fun _ => true) Sample.stick001 (Some Sample.newYork)
      JUndefined 1000
    = (reply, Some Sample.sos)
    /\ status Sample.sos = active
    /\ SOSController.httpStatus reply = 200%Z
    /\ SOSController.httpStatus reply <> 201%Z
    /\ SOSController.notificationsSent reply = None
    /\ SOSController.notificationsSent reply <> Some 0%nat.
Proof.
  eexists. split; [reflexivity|].
  vm_compute. repeat split; discriminate.
Qed.

(** An SOS raised on the equator, with an owner registered: answered with
    400, nothing stored. *)
Lemma createSOSEvent_without_coordinates_rejected_witness :
  let onEquator := {| lat := RNum 0; lon := RNum (36.8219)%Q |} in
  location (sosEventData Sample.stick001 (Some onEquator)
              (JStr (lit "manual")) 1000) = None
  /\ createSOSEvent Sample.stick001 (Some onEquator) (JStr (lit "manual"))
       1000 = None
  /\ Routes.postSOS [Sample.ownerWithoutToken] (fun _ => true)
       Sample.stick001 (Some onEquator) (JStr (lit "manual")) 1000
     = (SOSController.respond 400 false, None).
Proof.
  intro onEquator.
  exact (@createSOSEvent_without_coordinates_rejected
           [Sample.ownerWithoutToken] (fun _ => true) Sample.stick001
           (Some onEquator) (JStr (lit "manual")) 1000 eq_refl).
Defined.

(** ** Alert rules *)

Section AlertRules.

Import Sample.

Lemma add_events_nil (st : Store) : add_events st [] = st.
Proof. destruct st. unfold add_events. simpl. now rewrite app_nil_r. Qed.

(** The loop over the alerts stores nothing when none of them has a
    location: the first [Event.create] is rejected. *)
Lemma createAll_without_location (l : list Event) :
  Forall (fun e => location e = None) l -> createAll l = [].
Proof.
  destruct l as [|a l]; [reflexivity|].
  intros H. inversion H as [|? ? Ha _]; subst.
  simpl. now rewrite create_without_location.
Qed.

Lemma checkForAlerts_stores_nothing (st : Store) (device : jsstring)
    (t : Telemetry.Telemetry) :
  TelemetryController.checkForAlerts st device t = st.
Proof.
  unfold TelemetryController.checkForAlerts.
  rewrite createAll_without_location; [apply add_events_nil|].
  unfold TelemetryController.lowBatteryAlerts,
    TelemetryController.obstacleAlerts, TelemetryController.fallAlerts,
    TelemetryController.gpsLostAlerts.
  destruct (rtruthy _ && rlt _ 20);
  destruct (Qltb (Qmin _ _) 30);
  destruct (Telemetry.accelerometer (Telemetry.sensors t)) as [a|];
  try destruct (Qltb 400 (squaredMagnitude a));
  destruct (negb _ || negb _);
  try destruct (existsb _ (telemetry st));
  cbn [app]; repeat constructor.
Qed.

Lemma handleLowBatteryAlert_stores_nothing (st : Store) (device : jsstring)
    (level : reading) (now : Z) :
  MQTTClient.handleLowBatteryAlert st device level now = st.
Proof.
  unfold MQTTClient.handleLowBatteryAlert.
  destruct (MQTTClient.recentLowBattery st device now); [reflexivity|].
  rewrite createAll_without_location; [apply add_events_nil|].
  repeat constructor.
Qed.

Lemma checkCriticalSensorReadings_stores_nothing (st : Store)
    (device : jsstring) (t : Telemetry.Telemetry) (now : Z) :
  MQTTClient.checkCriticalSensorReadings st device t now = st.
Proof.
  unfold MQTTClient.checkCriticalSensorReadings.
  rewrite createAll_without_location; [apply add_events_nil|].
  unfold MQTTClient.criticalAlerts.
  destruct (rlt _ 30 || rlt _ 30);
  destruct (Telemetry.accelerometer (Telemetry.sensors t)) as [a|];
  try destruct (Qltb 400 (squaredMagnitude a));
  cbn [app]; repeat constructor.
Qed.

(** What the two ingestion paths do to the store: the record, when the
    schema takes it, and nothing else. *)
Lemma receiveTelemetry_cases (st : Store) (body : TelemetryController.Body)
    (now : Z) :
  TelemetryController.receiveTelemetry st body now
  = match Telemetry.save
            {| Telemetry.deviceId :=
                 Validators.sanitizeString (TelemetryController.deviceId body);
               Telemetry.timestamp :=
                 match TelemetryController.timestamp body with
                 | Some ts => ts
                 | None => now
                 end;
               Telemetry.sensors := TelemetryController.sensors body;
               Telemetry.gps := TelemetryController.gps body |} with
    | Some telemetry => (201%Z, add_telemetry st telemetry)
    | None => (400%Z, st)
    end.
Proof.
  unfold TelemetryController.receiveTelemetry.
  destruct (Telemetry.save _); [|reflexivity].
  now rewrite checkForAlerts_stores_nothing.
Qed.

Lemma handleTelemetryMessage_cases (st : Store) (device : jsstring)
    (t : Telemetry.Telemetry) (now : Z) :
  MQTTClient.handleTelemetryMessage st device t now
  = match Telemetry.save
            {| Telemetry.deviceId := device;
               Telemetry.timestamp := Telemetry.timestamp t;
               Telemetry.sensors := Telemetry.sensors t;
               Telemetry.gps := Telemetry.gps t |} with
    | Some telemetry => add_telemetry st telemetry
    | None => st
    end.
Proof.
  unfold MQTTClient.handleTelemetryMessage.
  destruct (Telemetry.save _); [|reflexivity].
  rewrite checkCriticalSensorReadings_stores_nothing.
  destruct (rlt _ 20); [|reflexivity].
  apply handleLowBatteryAlert_stores_nothing.
Qed.

Lemma postTelemetry_events (st : Store) (body : TelemetryController.Body)
    (now : Z) :
  events (snd (Routes.postTelemetry st body now)) = events st.
Proof.
  unfold Routes.postTelemetry.
  destruct (Validators.validateTelemetry _ _ _ _); [|reflexivity].
  rewrite receiveTelemetry_cases.
  now destruct (Telemetry.save _).
Qed.

Lemma handleTelemetryMessage_events (st : Store) (device : jsstring)
    (t : Telemetry.Telemetry) (now : Z) :
  events (MQTTClient.handleTelemetryMessage st device t now) = events st.
Proof.
  rewrite handleTelemetryMessage_cases. now destruct (Telemetry.save _).
Qed.

(** *** Low battery *)

(** The rule of the HTTP path on a level other than 0: an alert exactly
    below 20, high below 10 and medium from 10 on. *)
Lemma lowBatteryAlerts_nonzero (device : jsstring) (t : Telemetry.Telemetry)
    (level : Q) :
  Telemetry.batteryLevel (Telemetry.sensors t) = RNum level ->
  ~ (level == 0)%Q ->
  TelemetryController.lowBatteryAlerts device t
  = if Qltb level 20
    then [alertEvent LOW_BATTERY (if Qltb level 10 then high else medium)
            device (Some 20%Q) (RNum level) (Telemetry.timestamp t)]
    else [].
Proof.
  intros Hl Hz. unfold TelemetryController.lowBatteryAlerts. rewrite Hl.
  simpl.
  destruct (Qeq_bool level 0) eqn:E.
  - apply Qeq_bool_iff in E. contradiction.
  - reflexivity.
Qed.

(** The same in terms of the order of the rationals. *)
Lemma lowBatteryAlerts_bands (device : jsstring) (t : Telemetry.Telemetry)
    (level : Q) :
  Telemetry.batteryLevel (Telemetry.sensors t) = RNum level ->
  ~ (level == 0)%Q ->
  let alert sev :=
    alertEvent LOW_BATTERY sev device (Some 20%Q) (RNum level)
      (Telemetry.timestamp t) in
  ((level < 10)%Q ->
   TelemetryController.lowBatteryAlerts device t = [alert high])
  /\ ((10 <= level)%Q -> (level < 20)%Q ->
      TelemetryController.lowBatteryAlerts device t = [alert medium])
  /\ ((20 <= level)%Q ->
      TelemetryController.lowBatteryAlerts device t = []).
Proof.
  intros Hl Hz alert. rewrite (lowBatteryAlerts_nonzero device t Hl Hz).
  repeat split.
  - intros H10.
    assert (H20 : (level < 20)%Q) by (eapply Qlt_trans; [exact H10|reflexivity]).
    apply Qltb_lt in H10, H20. now rewrite H10, H20.
  - intros H10 H20. apply Qltb_ge in H10. apply Qltb_lt in H20.
    now rewrite H10, H20.
  - intros H20. apply Qltb_ge in H20. now rewrite H20.
Qed.

(** The alerts the rule raises around its thresholds, before they are
    handed to [Event.create]: 19.99 raises a medium one, 20 none, 8 a high
    one. *)
Lemma lowBatteryAlerts_thresholds :
  let run level :=
    map (fun e => (type e, severity e))
      (TelemetryController.lowBatteryAlerts stick001
         (telemetryPayload (battery level) 5000)) in
  run (19.99)%Q = [(LOW_BATTERY, medium)]
  /\ run 20%Q = []
  /\ run 8%Q = [(LOW_BATTERY, high)]
  /\ run 10%Q = [(LOW_BATTERY, medium)].
Proof. vm_compute. repeat split. Qed.

(** C5 at the failing inputs.  [POST /api/telemetry] with battery level
    19.99: the record is accepted (201), the rule raises its medium alert,
    [Event.create] rejects it, and no incident is stored.  The same with
    level 8 and the high alert, on the HTTP path and on the MQTT path.
    With level 0 the rule of the HTTP path raises nothing to begin with,
    because it tests [level && level < 20] and 0 is falsy. *)
Theorem low_battery_alert_not_created :
  let alerts level :=
    TelemetryController.lowBatteryAlerts stick001
      (telemetryPayload (battery level) 5000) in
  let post level :=
    Routes.postTelemetry emptyStore (telemetryBody (battery level) 5000)
      6000 in
  let stored level :=
    (201%Z,
     {| events := [];
        telemetry := [telemetryPayload (battery level) 5000] |}) in
  map (fun e => (type e, severity e, create e)) (alerts (19.99)%Q)
  = [(LOW_BATTERY, medium, None)]
  /\ post (19.99)%Q = stored (19.99)%Q
  /\ map (fun e => (type e, severity e, create e)) (alerts 8%Q)
     = [(LOW_BATTERY, high, None)]
  /\ post 8%Q = stored 8%Q
  /\ events (MQTTClient.handleTelemetryMessage emptyStore stick001
               (telemetryPayload (battery 8) 5000) 6000) = []
  /\ alerts 0%Q = []
  /\ post 0%Q = stored 0%Q.
Proof. vm_compute. repeat split. Qed.

(** *** Cooldown *)

(** C1 at the failing input: [POST /api/telemetry] for [stick-001] with
    battery level 8, and the same reading as an MQTT telemetry message.
    Both are accepted, and neither leaves a LOW_BATTERY incident, where
    the claim says exactly one: the alert the rule raises has no location,
    so [Event.create] rejects it.  No telemetry, on either path, ever adds
    an incident to the store. *)
Theorem low_battery_alert_never_recorded :
  let reading := telemetryPayload (battery 8) 5000 in
  let alert :=
    alertEvent LOW_BATTERY high stick001 (Some 20%Q) (RNum 8) 5000 in
  TelemetryController.lowBatteryAlerts stick001 reading = [alert]
  /\ create alert = None
  /\ Routes.postTelemetry emptyStore (telemetryBody (battery 8) 5000) 5000
     = (201%Z, {| events := []; telemetry := [reading] |})
  /\ count LOW_BATTERY stick001
       (snd (Routes.postTelemetry emptyStore
               (telemetryBody (battery 8) 5000) 5000)) = 0%nat
  /\ MQTTClient.handleTelemetryMessage emptyStore stick001 reading 5000
     = {| events := []; telemetry := [reading] |}
  /\ (forall st body now,
        events (snd (Routes.postTelemetry st body now)) = events st)
  /\ (forall st device t now,
        events (MQTTClient.handleTelemetryMessage st device t now)
        = events st).
Proof.
  intros reading alert.
  split; [reflexivity|]. split; [reflexivity|]. split; [reflexivity|].
  split; [reflexivity|]. split; [reflexivity|].
  split; [exact postTelemetry_events|exact handleTelemetryMessage_events].
Qed.

(** *** Obstacles *)

(** The rule of the HTTP path when both readings are numbers other than 0:
    an alert exactly when the smaller one is below 30, high below 15. *)
Lemma obstacleAlerts_nonzero (device : jsstring) (t : Telemetry.Telemetry)
    (left right : Q) :
  Telemetry.ultrasonicLeft (Telemetry.sensors t) = RNum left ->
  Telemetry.ultrasonicRight (Telemetry.sensors t) = RNum right ->
  ~ (left == 0)%Q -> ~ (right == 0)%Q ->
  TelemetryController.obstacleAlerts device t
  = if Qltb (Qmin left right) 30
    then [alertEvent OBSTACLE_DETECTED
            (if Qltb (Qmin left right) 15 then high else medium) device
            (Some 30%Q) (RNum (Qmin left right)) (Telemetry.timestamp t)]
    else [].
Proof.
  intros Hl Hr Hzl Hzr. unfold TelemetryController.obstacleAlerts.
  rewrite Hl, Hr. simpl.
  destruct (Qeq_bool left 0) eqn:El;
    [apply Qeq_bool_iff in El; contradiction|].
  destruct (Qeq_bool right 0) eqn:Er;
    [apply Qeq_bool_iff in Er; contradiction|].
  reflexivity.
Qed.

(** C6 at the failing input: telemetry with [ultrasonicLeft] 10 and
    [ultrasonicRight] 200, over HTTP and over MQTT.  Both paths accept the
    record and neither stores an OBSTACLE_DETECTED incident: the alert
    each rule raises is rejected by [Event.create].  The alerts raised
    differ, too: the minimum, 10, is below 15, and [checkForAlerts] raises
    a high alert where [checkCriticalSensorReadings] raises a medium one.
    On the HTTP path a reading of 0 is replaced by 1000, so left 0 and
    right 500 raise nothing. *)
Theorem obstacle_alert_not_created :
  let reading := telemetryPayload (sonar 10 200) 5000 in
  map (fun e => (type e, severity e, create e))
    (TelemetryController.obstacleAlerts stick001 reading)
  = [(OBSTACLE_DETECTED, high, None)]
  /\ map (fun e => (type e, severity e, create e))
       (MQTTClient.criticalAlerts stick001 reading 5000)
     = [(OBSTACLE_DETECTED, medium, None)]
  /\ Routes.postTelemetry emptyStore (telemetryBody (sonar 10 200) 5000) 5000
     = (201%Z, {| events := []; telemetry := [reading] |})
  /\ MQTTClient.handleTelemetryMessage emptyStore stick001 reading 5000
     = {| events := []; telemetry := [reading] |}
  /\ TelemetryController.obstacleAlerts stick001
       (telemetryPayload (sonar 0 500) 5000) = [].
Proof. vm_compute. repeat split. Qed.

End AlertRules.

(** ** Command dispatch *)

Section CommandDispatch.

Import Sample.

Variable published : jsstring -> bool.
Variable generateMessageId : jsstring -> jsstring.

Lemma isValidDeviceId_validDeviceId (device : jsstring) :
  Validators.isValidDeviceId device = true -> validDeviceId device = true.
Proof.
  unfold Validators.isValidDeviceId, validDeviceId.
  destruct device as [|c device]; simpl; [discriminate|].
  intros H. apply andb_true_iff in H. exact (proj2 H).
Qed.

(** The MQTT client publishes and then fails: the record it asks for has
    no location, so [Event.create] rejects it and the result says
    [success: false], with the message already out. *)
Lemma mqtt_sendCommand_fails (connected : bool) (st : Store)
    (device cmd : jsstring) (parameters : list (jsstring * jsval)) (now : Z) :
  MQTTClient.sendCommand connected published generateMessageId st device cmd
    parameters now
  = ({| MQTTClient.success := false; MQTTClient.messageId := None |}, st,
     if connected && published device then
       [{| MQTTClient.CommandMessage.device := device;
           MQTTClient.CommandMessage.command := cmd;
           MQTTClient.CommandMessage.parameters := parameters;
           MQTTClient.CommandMessage.timestamp := now;
           MQTTClient.CommandMessage.messageId := generateMessageId device |}]
     else []).
Proof.
  unfold MQTTClient.sendCommand.
  destruct (connected && published device); [|reflexivity].
  now rewrite create_without_location.
Qed.

(** *** Sanitized parameters *)

Lemma hasKey_app (a b : CommandController.object) (k : jsstring) :
  CommandController.hasKey (a ++ b) k
  = CommandController.hasKey a k || CommandController.hasKey b k.
Proof. unfold CommandController.hasKey. apply existsb_app. Qed.

Lemma assign_new (obj : CommandController.object) (k : jsstring) (v : jsval) :
  k <> lit "__proto__" ->
  CommandController.hasKey obj k = false ->
  CommandController.assign obj k v = obj ++ [(k, v)].
Proof.
  intros Hp Hk. unfold CommandController.assign.
  apply jsstring_eqb_neq in Hp. now rewrite Hp, Hk.
Qed.

Lemma sanitize_fold (params acc : CommandController.object) :
  NoDup (map fst params) ->
  ~ In (lit "__proto__") (map fst params) ->
  (forall k, In k (map fst params) -> CommandController.hasKey acc k = false) ->
  fold_left
    (fun acc kv =>
       match snd kv with
       | JStr s =>
           CommandController.assign acc (fst kv)
             (Validators.sanitizeText (JStr s))
       | v => CommandController.assign acc (fst kv) v
       end) params acc
  = acc ++ map sanitizeEntry params.
Proof.
  revert acc. induction params as [|[k v] params IH]; intros acc Hnd Hp Hacc.
  - simpl. now rewrite app_nil_r.
  - simpl in *. inversion Hnd as [|? ? Hk Hnd']; subst.
    assert (Ha : forall w, CommandController.assign acc k w = acc ++ [(k, w)]).
    { intros w. apply assign_new; [intros ->; apply Hp; now left|].
      apply Hacc. now left. }
    transitivity (acc ++ [(k, Validators.sanitizeText v)]
                  ++ map sanitizeEntry params); [|reflexivity].
    rewrite app_assoc. rewrite <- IH.
    + f_equal. destruct v; simpl; apply Ha.
    + assumption.
    + intros H. apply Hp. now right.
    + intros k' Hk'. rewrite hasKey_app.
      rewrite Hacc by now right. simpl.
      unfold CommandController.hasKey. simpl.
      rewrite orb_false_r. apply jsstring_eqb_neq.
      intros ->. contradiction.
Qed.

Lemma sanitizeParameters_map (params : CommandController.object) :
  NoDup (map fst params) ->
  ~ In (lit "__proto__") (map fst params) ->
  CommandController.sanitizeParameters params = map sanitizeEntry params.
Proof.
  intros Hnd Hp. unfold CommandController.sanitizeParameters.
  now rewrite sanitize_fold.
Qed.

(** What a dispatch gives, case by case: an early answer with nothing
    published, or the answer 500 with the store as it was and the message
    the broker took, if it took one. *)
Lemma dispatch_cases (connected : bool) (st : Store) (device : jsstring)
    (caller : option User) (userId : ObjectId) (cmd : jsstring)
    (P : CommandController.object) (now : Z) :
  let passes :=
    Validators.isValidDeviceId device
    && match caller with
       | Some user => ownsDevice user device || isAdmin user
       | None => false
       end
    && CommandController.isValidCommand cmd && connected in
  exists code,
    code <> 200%Z
    /\ CommandController.dispatch connected published generateMessageId st
         device caller userId cmd P now
       = (CommandController.respond code, st,
          if passes && published device then
            [{| MQTTClient.CommandMessage.device := device;
                MQTTClient.CommandMessage.command := cmd;
                MQTTClient.CommandMessage.parameters :=
                  CommandController.sanitizeParameters P;
                MQTTClient.CommandMessage.timestamp := now;
                MQTTClient.CommandMessage.messageId :=
                  generateMessageId device |}]
          else []).
Proof.
  intros passes. unfold passes, CommandController.dispatch.
  destruct (Validators.isValidDeviceId device); simpl;
    [|exists 400%Z; split; [discriminate|reflexivity]].
  destruct caller as [user|]; simpl;
    [|exists 404%Z; split; [discriminate|reflexivity]].
  destruct (ownsDevice user device || isAdmin user); simpl;
    [|exists 403%Z; split; [discriminate|reflexivity]].
  destruct (CommandController.isValidCommand cmd); simpl;
    [|exists 400%Z; split; [discriminate|reflexivity]].
  destruct connected; simpl;
    [|exists 503%Z; split; [discriminate|reflexivity]].
  rewrite mqtt_sendCommand_fails. simpl.
  exists 500%Z. split; [discriminate|reflexivity].
Qed.

(** C9, as the claim states it, fails: after the dispatch of a parameter
    value with angle brackets and surrounding blanks there is nothing to
    read back that equals it.  The message that went to the device
    carries the value changed, the answer echoes no parameters, and no
    COMMAND_SENT incident is stored. *)
Lemma sendCommand_roundtrip_counterexample :
  let P := [(lit "pattern", JStr (lit " <fast> "))] in
  exists reply st sent,
    CommandController.dispatch true (fun _ => true) (fun _ => lit "msg_1")
      emptyStore stick001 (Some admin) alice (lit "vibrate") P 1000
    = (reply, st, sent)
    /\ map MQTTClient.CommandMessage.parameters sent
       = [[(lit "pattern", JStr (lit "fast"))]]
    /\ ~ In P (map MQTTClient.CommandMessage.parameters sent)
    /\ CommandController.parameters reply = None
    /\ CommandController.parameters reply <> Some P
    /\ events st = [].
Proof.
  intro P. do 3 eexists. split; [reflexivity|].
  vm_compute. repeat split; try discriminate.
  intros [H|[]]; discriminate.
Qed.

(** C9, amended: for a parameters object [P] (its own properties, none
    named [__proto__]), a single-device dispatch that passes its checks
    and whose message the broker takes publishes one command message to
    the device, and the parameters of that message are those of [P] in
    their order with every string value passed through [sanitizeText]
    (trimmed, angle brackets removed) and every other value as it is;
    this is [P] itself exactly when [sanitizeText] changes none of its
    values. *)
Theorem sendCommand_parameters_sanitized
    (st : Store) (device : jsstring) (user : User) (userId : ObjectId)
    (cmd : jsstring) (P : CommandController.object) (now : Z) :
  NoDup (map fst P) ->
  ~ In (lit "__proto__") (map fst P) ->
  Validators.isValidDeviceId device = true ->
  ownsDevice user device || isAdmin user = true ->
  CommandController.isValidCommand cmd = true ->
  published device = true ->
  exists message,
    snd (CommandController.dispatch true published generateMessageId st
           device (Some user) userId cmd P now) = [message]
    /\ MQTTClient.CommandMessage.device message = device
    /\ MQTTClient.CommandMessage.command message = cmd
    /\ MQTTClient.CommandMessage.parameters message = map sanitizeEntry P
    /\ (MQTTClient.CommandMessage.parameters message = P
        <-> forall kv, In kv P -> Validators.sanitizeText (snd kv) = snd kv).
Proof.
  intros Hnd Hp Hd Ha Hc Hpub.
  destruct (dispatch_cases true st device (Some user) userId cmd P now)
    as (code & _ & ->).
  rewrite Hd, Ha, Hc, Hpub. simpl.
  eexists. split; [reflexivity|]. simpl.
  rewrite sanitizeParameters_map by assumption.
  repeat split.
  - intros Heq kv Hin. clear - Heq Hin.
    induction P as [|[k v] P IH]; [contradiction|].
    simpl in Heq. injection Heq as Hv HP.
    destruct Hin as [<- | Hin]; [exact Hv|now apply IH].
  - intros Hfix. clear - Hfix. induction P as [|[k v] P IH]; [reflexivity|].
    simpl. f_equal.
    + unfold sanitizeEntry. f_equal. apply (Hfix (k, v)). now left.
    + apply IH. intros kv Hin. apply Hfix. now right.
Qed.

End CommandDispatch.

Lemma sendCommand_parameters_sanitized_witness :
  let P := [(lit "pattern", JStr (lit " <fast> ")); (lit "times", JNum 3)] in
  exists message,
    snd (CommandController.dispatch true (fun _ => true)
           (fun _ => lit "msg_1") Sample.emptyStore Sample.stick001
           (Some Sample.admin) Sample.alice (lit "vibrate") P 1000)
    = [message]
    /\ MQTTClient.CommandMessage.parameters message
       = [(lit "pattern", JStr (lit "fast")); (lit "times", JNum 3)].
Proof.
  intros P.
  assert (Hnd : NoDup (map fst P)).
  { repeat constructor; simpl; intuition discriminate. }
  assert (Hp : ~ In (lit "__proto__") (map fst P)).
  { simpl. intuition discriminate. }
  destruct (@sendCommand_parameters_sanitized (fun _ => true)
              (fun _ => lit "msg_1") Sample.emptyStore Sample.stick001
              Sample.admin Sample.alice (lit "vibrate") P 1000
              Hnd Hp eq_refl eq_refl eq_refl eq_refl)
    as (message & Hrun & _ & _ & Hpar & _).
  exists message. split; [exact Hrun|exact Hpar].
Defined.

(** ** Bulk dispatch *)

Section BulkDispatch.

Variable published : jsstring -> bool.
Variable generateMessageId : jsstring -> jsstring.
Variable userId : ObjectId.
Variable cmd : jsstring.
Variable params : CommandController.object.
Variable now : Z.

(** The message of the command for a device. *)
Let message (device : jsstring) : MQTTClient.CommandMessage.t :=
  {| MQTTClient.CommandMessage.device := device;
     MQTTClient.CommandMessage.command := cmd;
     MQTTClient.CommandMessage.parameters := params;
     MQTTClient.CommandMessage.timestamp := now;
     MQTTClient.CommandMessage.messageId := generateMessageId device |}.

Let failed (device : jsstring) : CommandController.DeviceResult :=
  {| CommandController.deviceId := device; CommandController.sent := false;
     CommandController.messageId := None |}.

Let reached (device : jsstring) : bool :=
  Validators.isValidDeviceId device && published device.

(** One turn of the loop appends one failure entry for the device,
    whatever happened to the devices before it, and leaves the store as it
    was; the message went out when the id is well formed and the broker
    took it. *)
Lemma bulkStep_entry (res : list CommandController.DeviceResult) (st : Store)
    (out : list MQTTClient.CommandMessage.t) (device : jsstring) :
  CommandController.bulkStep true published generateMessageId userId cmd
    params now (res, st, out) device
  = (res ++ [failed device], st,
     out ++ (if reached device then [message device] else [])).
Proof.
  unfold CommandController.bulkStep, reached.
  destruct (Validators.isValidDeviceId device); simpl.
  - rewrite mqtt_sendCommand_fails. simpl. reflexivity.
  - now rewrite app_nil_r.
Qed.

Lemma bulk_loop (deviceIds : list jsstring)
    (res : list CommandController.DeviceResult) (st : Store)
    (out : list MQTTClient.CommandMessage.t) :
  fold_left
    (CommandController.bulkStep true published generateMessageId userId
       cmd params now) deviceIds (res, st, out)
  = (res ++ map failed deviceIds, st,
     out ++ map message (filter reached deviceIds)).
Proof.
  revert res out. induction deviceIds as [|d ds IH]; intros res out.
  - simpl. now rewrite !app_nil_r.
  - cbn [fold_left]. rewrite bulkStep_entry, IH.
    rewrite <- !app_assoc. cbn [map filter].
    destruct (reached d); reflexivity.
Qed.

Lemma filter_sent_failed (deviceIds : list jsstring) :
  filter CommandController.sent (map failed deviceIds) = [].
Proof. induction deviceIds as [|d ds IH]; [reflexivity|exact IH]. Qed.

(** C8 against the code: a bulk dispatch of a valid command by an
    administrator, with the broker connected, does handle every device on
    its own and lists the devices in the order of the request, but with a
    failure for each of them, well formed or not, published or not: the
    MQTT client reports a dispatch as failed once [Event.create] has
    rejected its record.  [successCount] is 0, [success] is false, the
    status is 500 and the store is as before, while the message has gone
    out to every device whose id is well formed and whose publish the
    broker took. *)
Theorem sendBulkCommands_reports_no_success (st : Store)
    (deviceIds : list jsstring) :
  deviceIds <> [] ->
  CommandController.isValidCommand cmd = true ->
  exists sent,
    CommandController.sendBulkCommands true published generateMessageId st
      true userId deviceIds cmd params now
    = ({| CommandController.bulkStatus := 500;
          CommandController.bulkSuccess := false;
          CommandController.results :=
            map (fun device =>
                   {| CommandController.deviceId := device;
                      CommandController.sent := false;
                      CommandController.messageId := None |}) deviceIds;
          CommandController.successCount := 0;
          CommandController.totalDevices := List.length deviceIds |},
       st, sent)
    /\ map MQTTClient.CommandMessage.device sent
       = filter (fun device =>
                   Validators.isValidDeviceId device && published device)
           deviceIds
    /\ Forall (fun m => MQTTClient.CommandMessage.command m = cmd
                        /\ MQTTClient.CommandMessage.parameters m = params)
         sent.
Proof.
  intros Hne Hcmd. unfold CommandController.sendBulkCommands.
  destruct deviceIds as [|d ds]; [contradiction|].
  rewrite Hcmd. cbn [negb].
  rewrite bulk_loop. cbn [app].
  rewrite filter_sent_failed.
  eexists. split; [reflexivity|]. fold reached. split.
  - rewrite map_map. apply map_id.
  - apply Forall_forall. intros m Hm.
    apply in_map_iff in Hm. destruct Hm as (x & <- & _). now split.
Qed.

End BulkDispatch.

(** The scenario of the specification with a broker that takes every
    message: three failures, no success, status 500, and the command
    published to [a] and to [b]. *)
Lemma sendBulkCommands_reports_no_success_witness :
  exists reply sent,
    CommandController.sendBulkCommands true (fun _ => true)
      (fun _ => lit "msg_1") Sample.emptyStore true Sample.alice
      [lit "a"; lit "bad id"; lit "b"] (lit "vibrate") [] 1000
    = (reply, Sample.emptyStore, sent)
    /\ CommandController.successCount reply = 0%nat
    /\ List.length
         (filter (fun r => negb (CommandController.sent r))
            (CommandController.results reply)) = 3%nat
    /\ CommandController.bulkSuccess reply = false
    /\ CommandController.bulkStatus reply = 500%Z
    /\ map MQTTClient.CommandMessage.device sent = [lit "a"; lit "b"].
Proof.
  assert (Hne : [lit "a"; lit "bad id"; lit "b"] <> []) by discriminate.
  destruct (@sendBulkCommands_reports_no_success (fun _ => true)
              (fun _ => lit "msg_1") Sample.alice (lit "vibrate") [] 1000
              Sample.emptyStore [lit "a"; lit "bad id"; lit "b"]
              Hne eq_refl) as (sent & Hrun & Hd & _).
  eexists _, sent. split; [exact Hrun|].
  repeat split. exact Hd.
Defined.

(** * Further properties of the code *)

(** ** Sanitized text and device ids *)

Section SanitizedText.

(** [sanitizeText] returns a string without angle brackets, whatever the
    input. *)
Theorem sanitizeString_no_angle_bracket (s : jsstring) (c : N) :
  In c (Validators.sanitizeString s) -> c <> 60%N /\ c <> 62%N.
Proof.
  unfold Validators.sanitizeString. intros H.
  apply filter_In in H. destruct H as [_ H].
  apply negb_true_iff, orb_false_iff in H. destruct H as [H1 H2].
  apply N.eqb_neq in H1, H2. now split.
Qed.

Lemma sanitizeString_no_angle_bracket_witness :
  In 98%N (Validators.sanitizeString (lit " <b> ")) /\ 98%N <> 60%N /\ 98%N <> 62%N.
Proof.
  assert (H : In 98%N (Validators.sanitizeString (lit " <b> "))).
  { vm_compute. now left. }
  split; [exact H|].
  exact (@sanitizeString_no_angle_bracket (lit " <b> ") 98%N H).
Defined.

Lemma isDeviceIdChar_ranges (c : N) :
  Validators.isDeviceIdChar c = true ->
  (97 <= c <= 122 \/ 65 <= c <= 90 \/ 48 <= c <= 57 \/ c = 95 \/ c = 45)%N.
Proof.
  unfold Validators.isDeviceIdChar.
  rewrite !orb_true_iff, !andb_true_iff, !N.leb_le, !N.eqb_eq. tauto.
Qed.

Lemma isDeviceIdChar_not_space (c : N) :
  Validators.isDeviceIdChar c = true -> isWhiteSpace c = false.
Proof.
  intros H. apply isDeviceIdChar_ranges in H.
  apply not_true_is_false. unfold isWhiteSpace.
  rewrite !orb_true_iff, !andb_true_iff, !N.leb_le, !N.eqb_eq. lia.
Qed.

Lemma isDeviceIdChar_not_angle (c : N) :
  Validators.isDeviceIdChar c = true ->
  negb ((c =? 60) || (c =? 62))%N = true.
Proof.
  intros H. apply isDeviceIdChar_ranges in H.
  apply negb_true_iff, orb_false_iff. split; apply N.eqb_neq; lia.
Qed.

Lemma trimStart_head (c : N) (s : jsstring) :
  isWhiteSpace c = false -> trimStart (c :: s) = c :: s.
Proof. intros H. simpl. now rewrite H. Qed.

Lemma trimStart_id (s : jsstring) :
  forallb Validators.isDeviceIdChar s = true -> trimStart s = s.
Proof.
  destruct s as [|c s]; [reflexivity|]. simpl. intros H.
  apply andb_true_iff in H. destruct H as [H _].
  now rewrite (isDeviceIdChar_not_space _ H).
Qed.

Lemma forallb_rev (A : Type) (f : A -> bool) (l : list A) :
  forallb f (rev l) = forallb f l.
Proof.
  induction l as [|a l IH]; [reflexivity|].
  simpl. rewrite forallb_app, IH. simpl. rewrite andb_true_r. apply andb_comm.
Qed.

Lemma trim_id (s : jsstring) :
  forallb Validators.isDeviceIdChar s = true -> trim s = s.
Proof.
  intros H. unfold trim, trimEnd. rewrite (trimStart_id _ H).
  rewrite trimStart_id; [apply rev_involutive|].
  now rewrite forallb_rev.
Qed.

Lemma filter_id (A : Type) (f g : A -> bool) (l : list A) :
  (forall a, g a = true -> f a = true) ->
  forallb g l = true -> filter f l = l.
Proof.
  intros Hfg. induction l as [|a l IH]; [reflexivity|].
  simpl. intros H. apply andb_true_iff in H. destruct H as [Ha Hl].
  rewrite (Hfg _ Ha). f_equal. now apply IH.
Qed.

Lemma isValidDeviceId_chars (d : jsstring) :
  Validators.isValidDeviceId d = true ->
  forallb Validators.isDeviceIdChar d = true.
Proof.
  unfold Validators.isValidDeviceId. intros H.
  apply andb_true_iff in H. destruct H as [H _].
  destruct d; [discriminate|exact H].
Qed.

(** A device id that [isValidDeviceId] accepts passes unchanged through
    [trim] and [sanitizeText], and passes the length test of the validation
    chains and of the schemas: the record and the incidents of a valid id
    are stored under the id as it was sent. *)
Theorem valid_device_id_is_kept (d : jsstring) :
  Validators.isValidDeviceId d = true ->
  trim d = d
  /\ Validators.sanitizeString d = d
  /\ Validators.validDeviceIdField d = true
  /\ validDeviceId d = true.
Proof.
  intros H. pose proof (isValidDeviceId_chars _ H) as Hc.
  pose proof (trim_id _ Hc) as Ht.
  split; [exact Ht|]. split; [|split].
  - unfold Validators.sanitizeString. rewrite Ht.
    apply filter_id with (g := Validators.isDeviceIdChar);
      [exact isDeviceIdChar_not_angle|exact Hc].
  - unfold Validators.validDeviceIdField. rewrite Ht.
    unfold Validators.isValidDeviceId in H.
    apply andb_true_iff in H. destruct H as [Hne Hlen]. rewrite Hlen.
    destruct d; [discriminate|reflexivity].
  - now apply isValidDeviceId_validDeviceId.
Qed.

Lemma valid_device_id_is_kept_witness :
  Validators.isValidDeviceId Sample.stick001 = true
  /\ trim Sample.stick001 = Sample.stick001
  /\ Validators.sanitizeString Sample.stick001 = Sample.stick001
  /\ Validators.validDeviceIdField Sample.stick001 = true
  /\ validDeviceId Sample.stick001 = true.
Proof.
  split; [reflexivity|].
  exact (@valid_device_id_is_kept Sample.stick001 eq_refl).
Defined.

End SanitizedText.

(** ** Topics *)

Section Topics.

Import Router.

Lemma split_not_nil (sep : N) (s : jsstring) : split sep s <> [].
Proof.
  induction s as [|c s IH]; simpl; [discriminate|].
  destruct (c =? sep)%N; [discriminate|].
  destruct (split sep s); discriminate.
Qed.

Lemma join_cons_cons (sep c : N) (part : jsstring) (rest : list jsstring) :
  join sep ((c :: part) :: rest) = c :: join sep (part :: rest).
Proof. destruct rest; reflexivity. Qed.

Lemma join_split (sep : N) (s : jsstring) : join sep (split sep s) = s.
Proof.
  induction s as [|c s IH]; [reflexivity|]. simpl.
  destruct (c =? sep)%N eqn:E.
  - apply N.eqb_eq in E. subst c.
    destruct (split sep s) as [|part rest] eqn:Es.
    + now apply split_not_nil in Es.
    + change (join sep ([] :: part :: rest))
        with (sep :: join sep (part :: rest)).
      now rewrite IH.
  - destruct (split sep s) as [|part rest] eqn:Es.
    + now apply split_not_nil in Es.
    + rewrite join_cons_cons. now rewrite IH.
Qed.

Lemma split_no_sep (sep : N) (p : jsstring) :
  ~ In sep p -> split sep p = [p].
Proof.
  induction p as [|c p IH]; [reflexivity|]. intros H. simpl.
  destruct (c =? sep)%N eqn:E.
  - apply N.eqb_eq in E. subst c. exfalso. apply H. now left.
  - rewrite IH; [reflexivity|]. intros Hin. apply H. now right.
Qed.

Lemma split_app (sep : N) (p t : jsstring) :
  ~ In sep p -> split sep (p ++ sep :: t) = p :: split sep t.
Proof.
  induction p as [|c p IH]; intros H.
  - simpl. now rewrite N.eqb_refl.
  - simpl. destruct (c =? sep)%N eqn:E.
    + apply N.eqb_eq in E. subst c. exfalso. apply H. now left.
    + rewrite IH; [reflexivity|]. intros Hin. apply H. now right.
Qed.

Lemma split_join (sep : N) (parts : list jsstring) :
  parts <> [] ->
  Forall (fun p => ~ In sep p) parts ->
  split sep (join sep parts) = parts.
Proof.
  induction parts as [|p parts IH]; [contradiction|]. intros _ H.
  inversion H as [|? ? Hp Hrest]; subst.
  destruct parts as [|q parts].
  - simpl. now apply split_no_sep.
  - change (join sep (p :: q :: parts)) with (p ++ sep :: join sep (q :: parts)).
    rewrite split_app by assumption.
    rewrite IH; [reflexivity|discriminate|assumption].
Qed.

(** [split] and [join] are inverse to each other: joining the parts of a
    string gives the string back, and splitting the join of parts that hold
    no separator (at least one part) gives the parts back. *)
Theorem split_join_round_trip (sep : N) :
  (forall s, join sep (split sep s) = s)
  /\ (forall parts,
        parts <> [] -> Forall (fun p => ~ In sep p) parts ->
        split sep (join sep parts) = parts).
Proof. split; [apply join_split|apply split_join]. Qed.

Lemma split_join_round_trip_witness :
  let parts := [lit "smartstick"; Sample.stick001; lit "sos"] in
  join slash (split slash (lit "smartstick/stick-001/sos"))
  = lit "smartstick/stick-001/sos"
  /\ split slash (join slash parts) = parts.
Proof.
  intro parts. split.
  - exact (proj1 (split_join_round_trip slash) (lit "smartstick/stick-001/sos")).
  - apply (proj2 (split_join_round_trip slash) parts).
    + discriminate.
    + repeat constructor; vm_compute; intuition discriminate.
Defined.

Lemma partsMatch_Forall2 (ps ts : list jsstring) :
  List.length ts = List.length ps ->
  (partsMatch ps ts = true <-> Forall2 (fun p t => p = plus \/ p = t) ps ts).
Proof.
  revert ts. induction ps as [|p ps IH]; intros [|t ts] Hlen;
    try discriminate.
  - split; [constructor|reflexivity].
  - injection Hlen as Hlen. specialize (IH ts Hlen). simpl.
    destruct (jsstring_eqb p plus) eqn:E1; simpl.
    + apply jsstring_eqb_eq in E1. rewrite IH. split.
      * intros H. constructor; [now left|exact H].
      * intros H. now inversion H.
    + destruct (jsstring_eqb p t) eqn:E2; simpl.
      * apply jsstring_eqb_eq in E2. rewrite IH. split.
        -- intros H. constructor; [now right|exact H].
        -- intros H. now inversion H.
      * apply jsstring_eqb_neq in E1, E2. split; [discriminate|].
        intros H. inversion H as [|? ? ? ? [Hp|Hp] _]; contradiction.
Qed.

(** The wildcard stands for exactly one part: a topic matches a pattern
    exactly when both have the same number of parts and every part of the
    pattern is [+] or the part of the topic at its place.  An empty part
    between two slashes is a part like any other. *)
Theorem topicMatches_spec (ts ps : list jsstring) :
  ts <> [] -> ps <> [] ->
  Forall (fun p => ~ In slash p) ts ->
  Forall (fun p => ~ In slash p) ps ->
  (topicMatches (join slash ts) (join slash ps) = true
   <-> Forall2 (fun p t => p = plus \/ p = t) ps ts).
Proof.
  intros Hts Hps Ft Fp. unfold topicMatches.
  rewrite !split_join by assumption.
  destruct (List.length ts =? List.length ps)%nat eqn:E; simpl.
  - apply Nat.eqb_eq in E. now apply partsMatch_Forall2.
  - apply Nat.eqb_neq in E. split; [discriminate|].
    intros H. apply Forall2_length in H. congruence.
Qed.

Lemma topicMatches_spec_witness :
  topicMatches (join slash [lit "smartstick"; []; lit "sos"])
    (join slash [lit "smartstick"; plus; lit "sos"]) = true.
Proof.
  apply (@topicMatches_spec [lit "smartstick"; []; lit "sos"]
           [lit "smartstick"; plus; lit "sos"]).
  - discriminate.
  - discriminate.
  - repeat constructor; vm_compute; intuition discriminate.
  - repeat constructor; vm_compute; intuition discriminate.
  - constructor; [now right|]. constructor; [now left|].
    constructor; [now right|constructor].
Defined.

End Topics.

(** ** Dispatch of inbound messages *)

Section Dispatch.

Import Router.

Lemma partsMatch_cons (p t : jsstring) (ps ts : list jsstring) :
  partsMatch (p :: ps) (t :: ts) = true
  <-> (p = plus \/ p = t) /\ partsMatch ps ts = true.
Proof.
  simpl.
  destruct (jsstring_eqb p plus) eqn:E1; simpl.
  - apply jsstring_eqb_eq in E1. intuition.
  - destruct (jsstring_eqb p t) eqn:E2; simpl.
    + apply jsstring_eqb_eq in E2. intuition.
    + apply jsstring_eqb_neq in E1, E2. intuition discriminate.
Qed.

Lemma topicMatches_parts (topic pattern : jsstring) :
  topicMatches topic pattern = true ->
  List.length (split slash topic) = List.length (split slash pattern)
  /\ partsMatch (split slash pattern) (split slash topic) = true.
Proof.
  unfold topicMatches.
  destruct (List.length (split slash topic)
            =? List.length (split slash pattern))%nat eqn:E; simpl;
    [|discriminate].
  apply Nat.eqb_eq in E. now split.
Qed.

(** The patterns of [setupSubscriptions] exclude each other: no topic
    matches two of them, so the handler a message reaches does not depend
    on the order in which the map lists the patterns. *)
Theorem default_patterns_disjoint (topic p1 p2 : jsstring) (h1 h2 : Handler) :
  In (p1, h1) defaultSubscriptions ->
  In (p2, h2) defaultSubscriptions ->
  topicMatches topic p1 = true ->
  topicMatches topic p2 = true ->
  p1 = p2 /\ h1 = h2.
Proof.
  intros In1 In2 M1 M2.
  apply topicMatches_parts in M1, M2.
  destruct M1 as [L1 M1], M2 as [L2 M2].
  set (tp := split slash topic) in *. clearbody tp.
  unfold defaultSubscriptions in In1, In2. simpl in In1, In2.
  repeat (destruct In1 as [In1|In1];
          [injection In1 as <- <-|]); try contradiction;
  repeat (destruct In2 as [In2|In2];
          [injection In2 as <- <-|]); try contradiction;
  try (split; reflexivity);
  vm_compute in L1, L2;
  destruct tp as [|a [|b [|c [|d [|e tp]]]]]; try discriminate;
  vm_compute (split slash _) in M1, M2;
  repeat match goal with
         | H : partsMatch (_ :: _) (_ :: _) = true |- _ =>
             apply partsMatch_cons in H; destruct H as [[?|?] ?]
         end;
  subst; discriminate.
Qed.

Lemma default_patterns_disjoint_witness :
  let topic := lit "smartstick/stick-001/sos" in
  topicMatches topic (lit "smartstick/+/sos") = true
  /\ (lit "smartstick/+/sos" = lit "smartstick/+/sos"
      /\ SOSMessage = SOSMessage).
Proof.
  intro topic. split; [reflexivity|].
  apply (@default_patterns_disjoint topic (lit "smartstick/+/sos")
           (lit "smartstick/+/sos") SOSMessage SOSMessage).
  - do 5 right. now left.
  - do 5 right. now left.
  - reflexivity.
  - reflexivity.
Defined.

(** Whether the broker grants the subscription to a topic. *)
Variable granted : jsstring -> bool.

Lemma subscribeAll_handlers (l : list (jsstring * Handler)) (st : State) :
  (forall topic, granted topic = true) ->
  connected st = true ->
  connected (subscribeAll granted st l) = true
  /\ messageHandlers (subscribeAll granted st l)
     = fold_left (fun m kh => mapSet m (fst kh) (snd kh)) l
         (messageHandlers st)
  /\ subscriptions (subscribeAll granted st l)
     = fold_left (fun s kh => setAdd s (fst kh)) l (subscriptions st).
Proof.
  intros Hall. revert st. induction l as [|[k h] l IH]; intros st Hc.
  - simpl. auto.
  - simpl. unfold subscribe. rewrite Hc, Hall. simpl.
    apply IH. reflexivity.
Qed.

(** On a connected client whose handler map is empty, and with a broker
    that grants every subscription, [setupSubscriptions] binds the eight
    patterns, and then a message of a device on one of the eight topic
    shapes reaches the handler of that shape, which reads the device id
    back from the topic.  The device id is any string without a slash, the
    empty one included.  (A subscription the broker refuses ends
    [setupSubscriptions] in its [catch], and the patterns after it stay
    unbound.) *)
Theorem messages_reach_their_handler (st : State) (d : jsstring) :
  (forall topic, granted topic = true) ->
  connected st = true ->
  messageHandlers st = [] ->
  ~ In slash d ->
  let st' := setupSubscriptions granted st in
  let route kind := handleMessage st' (lit "smartstick/" ++ d ++ kind) in
  route (lit "/sensors/sonar") = Some SonarData
  /\ route (lit "/sensors/ir") = Some IRData
  /\ route (lit "/sensors/gps") = Some GPSData
  /\ route (lit "/sensors/imu") = Some IMUData
  /\ route (lit "/telemetry") = Some TelemetryMessage
  /\ route (lit "/sos") = Some SOSMessage
  /\ route (lit "/status") = Some StatusMessage
  /\ route (lit "/response") = Some ResponseMessage
  /\ extractDeviceId (lit "smartstick/" ++ d ++ lit "/telemetry") = Some d
  /\ extractDeviceId (lit "smartstick/" ++ d ++ lit "/sensors/sonar") = Some d.
Proof.
  intros Hall Hc Hm Hd st' route.
  assert (Hh : messageHandlers st' = defaultSubscriptions).
  { unfold st', setupSubscriptions.
    rewrite (proj1 (proj2 (@subscribeAll_handlers defaultSubscriptions st
                             Hall Hc))).
    rewrite Hm. reflexivity. }
  assert (H3 : forall kind,
    ~ In slash kind ->
    split slash (lit "smartstick/" ++ d ++ slash :: kind)
    = [lit "smartstick"; d; kind]).
  { intros kind Hk.
    change (lit "smartstick/" ++ d ++ slash :: kind)
      with (join slash [lit "smartstick"; d; kind]).
    apply split_join; [discriminate|].
    repeat constructor; try assumption. vm_compute. intuition discriminate. }
  assert (H4 : forall kind,
    ~ In slash kind ->
    split slash (lit "smartstick/" ++ d ++ lit "/sensors/" ++ kind)
    = [lit "smartstick"; d; lit "sensors"; kind]).
  { intros kind Hk.
    change (lit "smartstick/" ++ d ++ lit "/sensors/" ++ kind)
      with (join slash [lit "smartstick"; d; lit "sensors"; kind]).
    apply split_join; [discriminate|].
    repeat constructor; try assumption; vm_compute; intuition discriminate. }
  unfold route, handleMessage. rewrite Hh.
  unfold defaultSubscriptions, findHandler, topicMatches, extractDeviceId.
  change (lit "/sensors/sonar") with (lit "/sensors/" ++ lit "sonar").
  change (lit "/sensors/ir") with (lit "/sensors/" ++ lit "ir").
  change (lit "/sensors/gps") with (lit "/sensors/" ++ lit "gps").
  change (lit "/sensors/imu") with (lit "/sensors/" ++ lit "imu").
  change (lit "/telemetry") with (slash :: lit "telemetry").
  change (lit "/sos") with (slash :: lit "sos").
  change (lit "/status") with (slash :: lit "status").
  change (lit "/response") with (slash :: lit "response").
  rewrite !H3, !H4 by (vm_compute; intuition discriminate).
  vm_compute. repeat split.
Qed.

End Dispatch.

Lemma messages_reach_their_handler_witness :
  let st := {| Router.connected := true; Router.subscriptions := [];
               Router.messageHandlers := [] |} in
  Router.handleMessage (Router.setupSubscriptions (fun _ => true) st)
    (lit "smartstick/" ++ Sample.stick001 ++ lit "/sos")
  = Some Router.SOSMessage.
Proof.
  intro st.
  assert (Hd : ~ In Router.slash Sample.stick001)
    by (vm_compute; intuition discriminate).
  exact (proj1 (proj2 (proj2 (proj2 (proj2 (proj2
           (@messages_reach_their_handler (fun _ => true) st
              Sample.stick001 (fun _ => eq_refl) eq_refl eq_refl Hd))))))).
Defined.

(** ** Subscriptions after a reconnect, and the command topic *)

Section Resubscribe.

Import Router.

(** Whether the broker grants the subscription to a topic, on the first
    run and on the second alike. *)
Variable granted : jsstring -> bool.

Let bound (k : jsstring) (m : list (jsstring * Handler)) :=
  find (fun kh => jsstring_eqb (fst kh) k) m.

Lemma mapSet_bound (m : list (jsstring * Handler)) (k : jsstring) (h : Handler) :
  bound k m = Some (k, h) -> mapSet m k h = m.
Proof.
  unfold bound. induction m as [|[k' h'] m IH]; simpl; [discriminate|].
  destruct (jsstring_eqb k' k) eqn:E.
  - intros H. now injection H as -> ->.
  - intros H. now rewrite IH.
Qed.

Lemma bound_mapSet_same (m : list (jsstring * Handler)) (k : jsstring)
    (h : Handler) :
  bound k (mapSet m k h) = Some (k, h).
Proof.
  unfold bound. induction m as [|[k' h'] m IH]; simpl.
  - now rewrite jsstring_eqb_refl.
  - destruct (jsstring_eqb k' k) eqn:E; simpl.
    + now rewrite jsstring_eqb_refl.
    + now rewrite E.
Qed.

Lemma bound_mapSet_other (m : list (jsstring * Handler)) (k k2 : jsstring)
    (h2 : Handler) :
  k <> k2 -> bound k (mapSet m k2 h2) = bound k m.
Proof.
  intros Hne. unfold bound. induction m as [|[k' h'] m IH]; simpl.
  - apply not_eq_sym, jsstring_eqb_neq in Hne. now rewrite Hne.
  - destruct (jsstring_eqb k' k2) eqn:E; simpl.
    + apply jsstring_eqb_eq in E. subst k'.
      apply not_eq_sym, jsstring_eqb_neq in Hne. now rewrite Hne.
    + destruct (jsstring_eqb k' k); [reflexivity|exact IH].
Qed.

Lemma bound_fold_other (l : list (jsstring * Handler))
    (m : list (jsstring * Handler)) (k : jsstring) :
  ~ In k (map fst l) ->
  bound k (fold_left (fun m kh => mapSet m (fst kh) (snd kh)) l m)
  = bound k m.
Proof.
  revert m. induction l as [|[k0 h0] l IH]; intros m Hk; [reflexivity|].
  simpl in *. rewrite IH by tauto.
  apply bound_mapSet_other. intros ->. apply Hk. now left.
Qed.

Lemma bound_fold (l : list (jsstring * Handler))
    (m : list (jsstring * Handler)) (k : jsstring) (h : Handler) :
  NoDup (map fst l) -> In (k, h) l ->
  bound k (fold_left (fun m kh => mapSet m (fst kh) (snd kh)) l m)
  = Some (k, h).
Proof.
  revert m. induction l as [|[k0 h0] l IH]; intros m Hnd Hin; [contradiction|].
  simpl in *. inversion Hnd as [|? ? Hk0 Hnd']; subst.
  destruct Hin as [Heq|Hin].
  - injection Heq as -> ->. rewrite bound_fold_other by assumption.
    apply bound_mapSet_same.
  - now apply IH.
Qed.

Lemma fold_mapSet_fixed (l : list (jsstring * Handler))
    (m : list (jsstring * Handler)) :
  (forall k h, In (k, h) l -> bound k m = Some (k, h)) ->
  fold_left (fun m kh => mapSet m (fst kh) (snd kh)) l m = m.
Proof.
  induction l as [|[k0 h0] l IH]; intros H; [reflexivity|].
  simpl. rewrite mapSet_bound by (apply H; now left).
  apply IH. intros k h Hin. apply H. now right.
Qed.

Lemma setAdd_mono (s : list jsstring) (k k2 : jsstring) :
  existsb (jsstring_eqb k) s = true ->
  existsb (jsstring_eqb k) (setAdd s k2) = true.
Proof.
  intros H. unfold setAdd. destruct (existsb (jsstring_eqb k2) s); [exact H|].
  rewrite existsb_app, H. reflexivity.
Qed.

Lemma setAdd_in (s : list jsstring) (k : jsstring) :
  existsb (jsstring_eqb k) (setAdd s k) = true.
Proof.
  unfold setAdd. destruct (existsb (jsstring_eqb k) s) eqn:E; [exact E|].
  rewrite existsb_app. simpl. now rewrite jsstring_eqb_refl, orb_true_r.
Qed.

Lemma fold_setAdd_in (l : list (jsstring * Handler)) (s : list jsstring)
    (k : jsstring) :
  existsb (jsstring_eqb k) s = true \/ In k (map fst l) ->
  existsb (jsstring_eqb k)
    (fold_left (fun s kh => setAdd s (fst kh)) l s) = true.
Proof.
  revert s. induction l as [|[k0 h0] l IH]; intros s H.
  - simpl in *. tauto.
  - simpl in *. apply IH. destruct H as [H|[H|H]].
    + left. now apply setAdd_mono.
    + subst k0. left. apply setAdd_in.
    + now right.
Qed.

Lemma fold_setAdd_fixed (l : list (jsstring * Handler)) (s : list jsstring) :
  (forall k, In k (map fst l) -> existsb (jsstring_eqb k) s = true) ->
  fold_left (fun s kh => setAdd s (fst kh)) l s = s.
Proof.
  induction l as [|[k0 h0] l IH]; intros H; [reflexivity|].
  simpl in *. unfold setAdd at 2. rewrite H by now left.
  apply IH. intros k Hk. apply H. now right.
Qed.

(** With a broker that grants every subscription, on the first run and on
    the second, running [setupSubscriptions] again on a connected client,
    as every reconnect does, changes nothing: each pattern keeps its
    single entry and its handler, whatever else the client had subscribed
    to. *)
Theorem setupSubscriptions_again (st : State) :
  (forall topic, granted topic = true) ->
  connected st = true ->
  setupSubscriptions granted (setupSubscriptions granted st)
  = setupSubscriptions granted st.
Proof.
  intros Hall Hc. unfold setupSubscriptions.
  destruct (@subscribeAll_handlers granted defaultSubscriptions st Hall Hc)
    as (Hc1 & Hm1 & Hs1).
  destruct (@subscribeAll_handlers granted defaultSubscriptions
              (subscribeAll granted st defaultSubscriptions) Hall Hc1)
    as (Hc2 & Hm2 & Hs2).
  assert (Hnd : NoDup (map fst defaultSubscriptions)).
  { vm_compute. repeat constructor; simpl; intuition discriminate. }
  rewrite fold_mapSet_fixed in Hm2.
  2:{ intros k h Hin. rewrite Hm1. now apply bound_fold. }
  rewrite fold_setAdd_fixed in Hs2.
  2:{ intros k Hin. rewrite Hs1. apply fold_setAdd_in. now right. }
  destruct (subscribeAll granted (subscribeAll granted st defaultSubscriptions)
              defaultSubscriptions) as [c2 s2 m2].
  destruct (subscribeAll granted st defaultSubscriptions) as [c1 s1 m1].
  simpl in *. congruence.
Qed.

(** What [sendCommand] publishes for a device, whatever its id, is on a
    topic that none of the patterns of [setupSubscriptions] matches: the
    server does not receive its own commands. *)
Theorem commandTopic_not_subscribed (d pattern : jsstring) (h : Handler) :
  In (pattern, h) defaultSubscriptions ->
  topicMatches (commandTopic d) pattern = false.
Proof.
  clear granted. intros Hin. unfold topicMatches, commandTopic.
  change (lit "stick/" ++ d ++ lit "/command")
    with (lit "stick" ++ slash :: (d ++ lit "/command")).
  rewrite split_app by (vm_compute; intuition discriminate).
  unfold defaultSubscriptions in Hin. simpl in Hin.
  repeat (destruct Hin as [Hin|Hin]; [injection Hin as <- <-|]);
    try contradiction;
    match goal with
    | |- (if ?c then _ else _) = _ => destruct c
    end; reflexivity.
Qed.

End Resubscribe.

Lemma setupSubscriptions_again_witness :
  let st := {| Router.connected := true;
               Router.subscriptions := [lit "smartstick/+/sos"];
               Router.messageHandlers :=
                 [(lit "smartstick/+/sos", Router.StatusMessage)] |} in
  Router.setupSubscriptions (fun _ => true)
    (Router.setupSubscriptions (fun _ => true) st)
  = Router.setupSubscriptions (fun _ => true) st.
Proof.
  intro st.
  exact (@setupSubscriptions_again (fun _ => true) st (fun _ => eq_refl)
           eq_refl).
Defined.

Lemma commandTopic_not_subscribed_witness :
  Router.topicMatches (Router.commandTopic Sample.stick001)
    (lit "smartstick/+/response") = false.
Proof.
  apply (@commandTopic_not_subscribed Sample.stick001
           (lit "smartstick/+/response") Router.ResponseMessage).
  do 7 right. now left.
Defined.

(** ** SOS messages over MQTT *)

Section MQTTSOSMessages.

Variable users : list User.
Variable sendSOSNotification : list jsstring -> bool.

Lemma createSOSEvent_button_press (device : jsstring) (gps : option Gps)
    (now : Z) :
  createSOSEvent device gps (JStr (lit "button_press")) now = None.
Proof.
  unfold createSOSEvent, create, save, validEvent.
  cbn [metadata emergencyType sosEventData with_deviceId].
  assert (validEmergencyType (JStr (lit "button_press")) = false) as ->
    by reflexivity.
  now rewrite !andb_false_r.
Qed.

(** [handleSOSMessage] never records an incident and never notifies
    anybody: it asks for the emergency type [button_press], which the
    [enum] of the schema does not list, so [Event.create] rejects the
    document and the handler ends in its [catch].  Over HTTP a body
    without emergency type gets the listed type [manual]. *)
Theorem handleSOSMessage_records_nothing (st : Store) (device : jsstring)
    (gps : option Gps) (now : Z) :
  ~ In (lit "button_press") emergencyTypes
  /\ MQTTSOS.handleSOSMessage users sendSOSNotification st device gps now
     = (st, []).
Proof.
  split.
  - vm_compute. intuition discriminate.
  - unfold MQTTSOS.handleSOSMessage.
    now rewrite createSOSEvent_button_press.
Qed.

End MQTTSOSMessages.

(** ** Incident handlers *)

Section IncidentHandlers.

Lemma guard_None (eventId : jsstring) (found : option Event)
    (caller : option User) :
  SOSController.guard eventId found caller = None ->
  exists e user,
    found = Some e /\ caller = Some user
    /\ Validators.isValidObjectId eventId = true
    /\ type e = SOS
    /\ (ownsDevice user (deviceId e) = true \/ isAdmin user = true).
Proof.
  unfold SOSController.guard.
  destruct (Validators.isValidObjectId eventId); simpl; [|discriminate].
  destruct found as [e|]; [|discriminate].
  unfold type_is. destruct (EventType_eq_dec (type e) SOS) as [Ht|];
    simpl; [|discriminate].
  destruct caller as [user|]; [|discriminate].
  destruct (ownsDevice user (deviceId e) || isAdmin user) eqn:Ea;
    [|discriminate].
  intros _. exists e, user. apply orb_true_iff in Ea. auto.
Qed.

(** None of the four handlers of a single SOS incident reads or changes it
    unless the id is well formed, the incident exists and is an SOS, and
    the caller exists and owns the device of the incident or is an
    administrator. *)
Theorem incident_handlers_check_access (eventId : jsstring)
    (found : option Event) (caller : option User) (userId : ObjectId)
    (text : jsstring) (actions : list jsstring) (target : option ObjectId)
    (level now : Z) (reply : SOSController.Response) (e' : Event) :
  Incident.getSOSEvent eventId found caller = (reply, Some e')
  \/ Incident.acknowledgeSOS eventId found caller userId text now
     = (reply, Some e')
  \/ SOSController.resolveSOS eventId found caller userId text actions now
     = (reply, Some e')
  \/ SOSController.escalateSOS eventId found caller target text level now
     = (reply, Some e') ->
  exists e user,
    found = Some e /\ caller = Some user
    /\ Validators.isValidObjectId eventId = true
    /\ type e = SOS
    /\ (ownsDevice user (deviceId e) = true \/ isAdmin user = true).
Proof.
  intros H.
  destruct (SOSController.guard eventId found caller) as [code|] eqn:Eg.
  - exfalso.
    unfold Incident.getSOSEvent, Incident.acknowledgeSOS,
      SOSController.resolveSOS, SOSController.escalateSOS in H.
    rewrite Eg in H.
    destruct H as [H|[H|[H|H]]]; try discriminate.
    destruct (negb (Validators.isValidObjectId eventId)); [discriminate|].
    destruct (match target with
              | Some (c :: t) => negb (Validators.isValidObjectId (c :: t))
              | _ => false
              end); discriminate.
  - now apply guard_None.
Qed.

Lemma incident_handlers_check_access_witness :
  exists e user,
    Some Sample.sos = Some e /\ Some Sample.admin = Some user
    /\ Validators.isValidObjectId Sample.sosId = true
    /\ type e = SOS
    /\ (ownsDevice user (deviceId e) = true \/ isAdmin user = true).
Proof.
  apply (@incident_handlers_check_access Sample.sosId (Some Sample.sos)
           (Some Sample.admin) Sample.alice [] [] None 1 2000
           (SOSController.respond 200 true) Sample.sos).
  left. reflexivity.
Defined.

(** No method of an incident brings it back to active, and neither
    acknowledging nor escalating moves an incident out of resolved. *)
Theorem status_never_returns_to_active (e : Event) (u : ObjectId)
    (n reason : jsstring) (actions : list jsstring)
    (target : option ObjectId) (level now : Z) :
  (status (acknowledge e u n now) = active -> status e = active)
  /\ status (resolve e u n actions now) <> active
  /\ (status (escalate e target reason level now) = active ->
      status e = active)
  /\ (status e = resolved ->
      status (acknowledge e u n now) = resolved
      /\ status (escalate e target reason level now) = resolved).
Proof.
  repeat split.
  - unfold acknowledge. destruct (isAcknowledged e); simpl; [auto|].
    destruct (status_is (status e) active) eqn:E; simpl; [discriminate|auto].
  - discriminate.
  - auto.
  - unfold acknowledge. destruct (isAcknowledged e); simpl; [assumption|].
    rewrite H. simpl. exact H.
  - assumption.
Qed.

Lemma status_never_returns_to_active_witness :
  let r := resolve Sample.sos Sample.alice [] [] 2000 in
  status (acknowledge r Sample.bob [] 3000) = resolved
  /\ status (escalate r None [] 2 3000) = resolved.
Proof.
  intro r.
  exact (proj2 (proj2 (proj2
           (@status_never_returns_to_active r Sample.bob [] [] [] None 2 3000)))
           eq_refl).
Defined.

(** Acknowledging is allowed on a resolved incident: [acknowledgeSOS] on a
    resolved incident without acknowledgment is answered with 200, appends
    the entry, and leaves the incident resolved with its resolution
    record. *)
Theorem acknowledge_after_resolve (eventId : jsstring) (e : Event)
    (caller : option User) (u : ObjectId) (n : jsstring) (now : Z) :
  SOSController.guard eventId (Some e) caller = None ->
  validEvent e = true ->
  status e = resolved ->
  acknowledgments e = [] ->
  exists e',
    Incident.acknowledgeSOS eventId (Some e) caller u n now
    = (SOSController.respond 200 true, Some e')
    /\ status e' = resolved
    /\ resolution e' = resolution e
    /\ Incident.isResolved e' = Incident.isResolved e
    /\ acknowledgments e'
       = [{| acknowledgedBy := u; acknowledgedAt := now;
             note := Validators.sanitizeString n |}].
Proof.
  intros Hg Hv Hs Ha. unfold Incident.acknowledgeSOS. rewrite Hg.
  unfold save. rewrite validEvent_acknowledge, Hv.
  eexists. split; [reflexivity|].
  assert (Hk : acknowledge e u (Validators.sanitizeString n) now
               = with_acknowledgments e
                   [{| acknowledgedBy := u; acknowledgedAt := now;
                       note := Validators.sanitizeString n |}]).
  { unfold acknowledge, isAcknowledged. rewrite Ha. simpl.
    rewrite Hs. reflexivity. }
  rewrite Hk. unfold Incident.isResolved. simpl. auto.
Qed.

Lemma acknowledge_after_resolve_witness :
  let r := resolve Sample.sos Sample.alice [] [] 2000 in
  exists e',
    Incident.acknowledgeSOS Sample.sosId (Some r) (Some Sample.admin)
      Sample.bob (lit " late ") 3000
    = (SOSController.respond 200 true, Some e')
    /\ status e' = resolved
    /\ resolution e' = resolution r
    /\ Incident.isResolved e' = Incident.isResolved r
    /\ acknowledgments e'
       = [{| acknowledgedBy := Sample.bob; acknowledgedAt := 3000%Z;
             note := Validators.sanitizeString (lit " late ") |}].
Proof.
  intro r.
  exact (@acknowledge_after_resolve Sample.sosId r (Some Sample.admin)
           Sample.bob (lit " late ") 3000 eq_refl eq_refl eq_refl eq_refl).
Defined.

(** The three methods write separate parts of the document, so the order
    in which two of them are applied does not matter. *)
Theorem incident_methods_commute (e : Event) (u1 u2 : ObjectId)
    (n1 n2 reason : jsstring) (actions : list jsstring)
    (target : option ObjectId) (level t1 t2 t3 : Z) :
  resolve (acknowledge e u1 n1 t1) u2 n2 actions t2
  = acknowledge (resolve e u2 n2 actions t2) u1 n1 t1
  /\ escalate (acknowledge e u1 n1 t1) target reason level t3
     = acknowledge (escalate e target reason level t3) u1 n1 t1
  /\ escalate (resolve e u2 n2 actions t2) target reason level t3
     = resolve (escalate e target reason level t3) u2 n2 actions t2.
Proof.
  repeat split.
  - unfold acknowledge, isAcknowledged. simpl.
    destruct (acknowledgments e); simpl; [|reflexivity].
    destruct (status_is (status e) active); reflexivity.
  - unfold acknowledge, isAcknowledged. simpl.
    destruct (acknowledgments e); simpl; [|reflexivity].
    destruct (status_is (status e) active); reflexivity.
Qed.

End IncidentHandlers.

(** ** Sorting and pages *)

Section Pages.

Import Pagination.

Variable A : Type.
Variable key : A -> Z.

Lemma In_insertDesc (x y : A) (l : list A) :
  In y (insertDesc key x l) <-> y = x \/ In y l.
Proof.
  induction l as [|z l IH]; simpl.
  - intuition.
  - destruct (key z <=? key x)%Z; simpl; [intuition|].
    rewrite IH. intuition.
Qed.

Lemma In_sortDesc (y : A) (l : list A) : In y (sortDesc key l) <-> In y l.
Proof.
  unfold sortDesc. induction l as [|x l IH]; simpl; [tauto|].
  rewrite In_insertDesc, IH. intuition.
Qed.

Lemma length_insertDesc (x : A) (l : list A) :
  List.length (insertDesc key x l) = S (List.length l).
Proof.
  induction l as [|z l IH]; simpl; [reflexivity|].
  destruct (key z <=? key x)%Z; simpl; [reflexivity|now rewrite IH].
Qed.

Lemma length_sortDesc (l : list A) :
  List.length (sortDesc key l) = List.length l.
Proof.
  unfold sortDesc. induction l as [|x l IH]; simpl; [reflexivity|].
  now rewrite length_insertDesc, IH.
Qed.





End Pages.

Section PageArithmetic.

Import Pagination.

Variable A : Type.

Lemma ceilDiv_lt (n p : nat) (d : positive) :
  (p < ceilDiv n d <-> p * Pos.to_nat d < n)%nat.
Proof.
  unfold ceilDiv. pose proof (Pos2Nat.is_pos d) as Hd.
  set (k := Pos.to_nat d) in *.
  pose proof (Nat.div_mod_eq n k) as Hdm.
  pose proof (Nat.mod_upper_bound n k ltac:(lia)) as Hm.
  destruct (n mod k =? 0)%nat eqn:E.
  - apply Nat.eqb_eq in E. nia.
  - apply Nat.eqb_neq in E. nia.
Qed.

Lemma firstn_pages (d : nat) (l : list A) (k : nat) :
  List.concat (map (fun i => firstn d (skipn (i * d) l)) (seq 0 k))
  = firstn (k * d) l.
Proof.
  induction k as [|k IH]; [reflexivity|].
  rewrite seq_S, map_app, concat_app, IH. simpl. rewrite app_nil_r.
  replace (d + k * d)%nat with (k * d + d)%nat by lia.
  clear IH. generalize (k * d)%nat as m. intros m. revert l.
  induction m as [|m IHm]; intros l; simpl.
  - reflexivity.
  - destruct l as [|a l]; simpl.
    + now rewrite firstn_nil.
    + now rewrite IHm.
Qed.

(** The pages of a query cover its result: for a limit of at least 1, the
    pages 1 to [totalPages], one after the other, are the whole sorted
    result, each document once. *)
Theorem pages_cover_the_result (l : list A) (limit : positive) :
  List.concat (map (fun i => slice l (Pos.of_nat (S i)) limit)
            (seq 0 (ceilDiv (List.length l) limit)))
  = l.
Proof.
  rewrite map_ext
    with (g := fun i => firstn (Pos.to_nat limit)
                          (skipn (i * Pos.to_nat limit) l)).
  2:{ intros i. unfold slice. rewrite Nat2Pos.id by discriminate.
      now replace (S i - 1)%nat with i by lia. }
  rewrite firstn_pages. apply firstn_all2.
  pose proof (ceilDiv_lt (List.length l) (ceilDiv (List.length l) limit) limit).
  lia.
Qed.

(** What the [pagination] object says about a page, for a page and a limit
    of at least 1: a page holds at most [limit] documents; [hasNext] holds
    exactly when the next page is not empty; a page after the last one is
    empty; [hasPrev] holds on every page but the first. *)
Theorem pagination_flags (l : list A) (page limit : positive) :
  let i := info (List.length l) page limit in
  (List.length (slice l page limit) <= Pos.to_nat limit)%nat
  /\ (hasNext i = true <-> slice l (Pos.succ page) limit <> [])
  /\ ((totalPages i < Pos.to_nat page)%nat -> slice l page limit = [])
  /\ (hasPrev i = true <-> page <> 1%positive).
Proof.
  intros i. pose proof (Pos2Nat.is_pos limit) as Hd.
  pose proof (Pos2Nat.is_pos page) as Hp.
  assert (Hs : forall p, slice l p limit <> []
                         <-> ((Pos.to_nat p - 1) * Pos.to_nat limit
                              < List.length l)%nat).
  { intros p. unfold slice.
    set (m := ((Pos.to_nat p - 1) * Pos.to_nat limit)%nat).
    pose proof (length_skipn m l) as Hl.
    destruct (skipn m l) as [|a r] eqn:Es.
    - simpl in Hl. rewrite firstn_nil. split; [congruence|lia].
    - simpl in Hl. destruct (Pos.to_nat limit) eqn:El; [lia|].
      simpl. split; [lia|discriminate]. }
  repeat split.
  - unfold slice. rewrite length_firstn. lia.
  - unfold i. simpl. rewrite Nat.ltb_lt, ceilDiv_lt. intros H.
    apply Hs. rewrite Pos2Nat.inj_succ.
    now replace (S (Pos.to_nat page) - 1)%nat with (Pos.to_nat page) by lia.
  - unfold i. simpl. rewrite Nat.ltb_lt, ceilDiv_lt. intros H.
    apply Hs in H. rewrite Pos2Nat.inj_succ in H.
    now replace (S (Pos.to_nat page) - 1)%nat with (Pos.to_nat page) in H
      by lia.
  - unfold i. simpl. intros H.
    destruct (slice l page limit) as [|a r] eqn:Es; [reflexivity|].
    exfalso.
    assert (Hne : slice l page limit <> []) by (rewrite Es; discriminate).
    apply Hs in Hne.
    pose proof (proj2 (ceilDiv_lt (List.length l) (Pos.to_nat page - 1) limit)
                  Hne). lia.
  - unfold i. simpl. rewrite Nat.ltb_lt. intros H ->. simpl in H. lia.
  - unfold i. simpl. rewrite Nat.ltb_lt. intros H.
    destruct (Pos.eq_dec page 1) as [->|Hne]; [contradiction|].
    assert (Pos.to_nat page <> 1%nat).
    { intros E. apply Hne. apply Pos2Nat.inj. now rewrite E. }
    lia.
Qed.

End PageArithmetic.

Lemma pagination_flags_witness :
  let l := [1; 2; 3; 4; 5]%Z in
  Pagination.slice l 3 2 = [5%Z]
  /\ Pagination.slice l 4 2 = []
  /\ Pagination.totalPages (Pagination.info (List.length l) 4 2) = 3%nat.
Proof.
  intro l. split; [reflexivity|]. split; [|reflexivity].
  apply (proj1 (proj2 (proj2 (@pagination_flags Z l 4 2)))).
  vm_compute. lia.
Defined.

(** ** Listing SOS incidents *)

Section ListingSOS.

Import Pagination.

Lemma In_firstn (A : Type) (n : nat) (l : list A) (x : A) :
  In x (firstn n l) -> In x l.
Proof.
  intros H. rewrite <- (firstn_skipn n l). apply in_or_app. now left.
Qed.

Lemma In_skipn (A : Type) (n : nat) (l : list A) (x : A) :
  In x (skipn n l) -> In x l.
Proof.
  intros H. rewrite <- (firstn_skipn n l). apply in_or_app. now right.
Qed.

Lemma In_slice (A : Type) (l : list A) (page limit : positive) (x : A) :
  In x (slice l page limit) -> In x l.
Proof.
  unfold slice. intros H. apply In_firstn in H. now apply In_skipn in H.
Qed.

(** A caller who is no administrator and gives no [deviceId] in the query
    is shown SOS incidents of their own devices only. *)
Theorem getSOSEvents_own_devices (st : Store) (user : User)
    (q : SOSQueries.Query) (code : Z) (data : list Event)
    (i : option Info) (e : Event) :
  isAdmin user = false ->
  provided (SOSQueries.deviceId q) = None ->
  SOSQueries.getSOSEvents st (Some user) q = (code, data, i) ->
  In e data ->
  In e (events st) /\ type e = SOS /\ In (deviceId e) (devices user).
Proof.
  intros Ha Hd Hrun Hin. unfold SOSQueries.getSOSEvents in Hrun.
  injection Hrun as _ <- _.
  apply In_slice, In_sortDesc, filter_In in Hin. destruct Hin as [Hin Hm].
  unfold SOSQueries.matches in Hm. rewrite Hd, Ha in Hm.
  rewrite !andb_true_iff in Hm. destruct Hm as [[[Ht Ho] _] _].
  split; [exact Hin|]. split.
  - unfold type_is in Ht. now destruct (EventType_eq_dec (type e) SOS).
  - apply existsb_exists in Ho. destruct Ho as (d & Hd' & Heq).
    apply jsstring_eqb_eq in Heq. now rewrite Heq.
Qed.


End ListingSOS.

Lemma getSOSEvents_own_devices_witness :
  let st := {| events := [Sample.sos]; telemetry := [] |} in
  let q := {| SOSQueries.page := 1; SOSQueries.limit := 20;
              SOSQueries.status := None; SOSQueries.deviceId := None;
              SOSQueries.startTime := None; SOSQueries.endTime := None |} in
  In Sample.sos (events st) /\ type Sample.sos = SOS
  /\ In (deviceId Sample.sos) (devices Sample.ownerWithoutToken).
Proof.
  intros st q.
  apply (@getSOSEvents_own_devices st Sample.ownerWithoutToken q 200
           [Sample.sos]
           (Some (Pagination.info 1 1 20)) Sample.sos eq_refl eq_refl eq_refl).
  now left.
Defined.


(** ** Reading telemetry back *)

Section ReadingTelemetry.

Import Pagination.



End ReadingTelemetry.



(** ** What a dispatch records *)

Section DispatchRecords.

Variable connected : bool.
Variable published : jsstring -> bool.
Variable generateMessageId : jsstring -> jsstring.


End DispatchRecords.


(** ** The emergency bundle *)

Section EmergencyBundle.

Variable published : jsstring -> bool.
Variable generateMessageId : jsstring -> jsstring.

(** One turn of the loop: the dispatch is reported as failed, its log is
    rejected and adds a second failure entry, and the store stays as it
    was; the message went out when the broker took it. *)
Lemma emergency_step (device : jsstring) (userId : ObjectId) (now : Z)
    (res : list Emergency.CommandResult) (st : Store)
    (out : list MQTTClient.CommandMessage.t)
    (cmd : jsstring) (parameters : list (jsstring * jsval)) :
  Emergency.step true published generateMessageId device userId now
    (res, st, out) (cmd, parameters)
  = (res ++ [{| Emergency.command := cmd; Emergency.sent := false |};
             {| Emergency.command := cmd; Emergency.sent := false |}],
     st,
     out ++ (if published cmd then
               [{| MQTTClient.CommandMessage.device := device;
                   MQTTClient.CommandMessage.command := cmd;
                   MQTTClient.CommandMessage.parameters := parameters;
                   MQTTClient.CommandMessage.timestamp := now;
                   MQTTClient.CommandMessage.messageId :=
                     generateMessageId device |}]
             else [])).
Proof.
  unfold Emergency.step. rewrite mqtt_sendCommand_fails.
  rewrite create_without_location by reflexivity.
  cbn [MQTTClient.success andb]. now rewrite <- app_assoc.
Qed.

(** The emergency bundle never reports a success.  For a caller with
    access and a connected client the answer is 500 with [success] false
    and no success out of 3, and it lists [led_on], [vibrate] and [beep] in
    this order, each twice and each time as failed: once for the dispatch,
    which the MQTT client reports as failed after [Event.create] has
    rejected its record, and once for the log incident of the handler,
    which is rejected as well.  The store is as before, while every
    command the broker took has gone out to the device. *)
Theorem sendEmergencyCommands_reports_no_success (st : Store)
    (device : jsstring) (user : User) (userId : ObjectId)
    (intensity duration : jsval) (now : Z) :
  Validators.isValidDeviceId device = true ->
  ownsDevice user device = true \/ isAdmin user = true ->
  exists sent,
    Emergency.sendEmergencyCommands true published generateMessageId st
      device (Some user) userId intensity duration now
    = ({| Emergency.httpStatus := 500;
          Emergency.success := false;
          Emergency.results :=
            flat_map (fun cmd =>
                        [{| Emergency.command := cmd;
                            Emergency.sent := false |};
                         {| Emergency.command := cmd;
                            Emergency.sent := false |}])
              [lit "led_on"; lit "vibrate"; lit "beep"];
          Emergency.successCount := 0;
          Emergency.totalCommands := 3 |}, st, sent)
    /\ map MQTTClient.CommandMessage.command sent
       = filter published [lit "led_on"; lit "vibrate"; lit "beep"]
    /\ Forall (fun m => MQTTClient.CommandMessage.device m = device) sent.
Proof.
  intros Hd Ha. unfold Emergency.sendEmergencyCommands.
  rewrite Hd. cbn [negb].
  assert (ownsDevice user device || isAdmin user = true) as ->
    by (apply orb_true_iff; exact Ha).
  cbn [negb]. unfold Emergency.commands. cbn [fold_left].
  rewrite !emergency_step. cbn [app flat_map filter List.length].
  eexists. split; [reflexivity|].
  destruct (published (lit "led_on")), (published (lit "vibrate")),
    (published (lit "beep")); cbn [app map];
    (split; [reflexivity|repeat constructor]).
Qed.

End EmergencyBundle.

(** A broker that takes the three messages: 500 all the same. *)
Lemma sendEmergencyCommands_reports_no_success_witness :
  exists reply sent,
    Emergency.sendEmergencyCommands true (fun _ => true)
      (fun _ => lit "msg_1") Sample.emptyStore Sample.stick001
      (Some Sample.admin) Sample.alice JUndefined JUndefined 1000
    = (reply, Sample.emptyStore, sent)
    /\ Emergency.httpStatus reply = 500%Z
    /\ Emergency.success reply = false
    /\ List.length (Emergency.results reply) = 6%nat
    /\ map MQTTClient.CommandMessage.command sent
       = [lit "led_on"; lit "vibrate"; lit "beep"].
Proof.
  destruct (@sendEmergencyCommands_reports_no_success (fun _ => true)
              (fun _ => lit "msg_1") Sample.emptyStore Sample.stick001
              Sample.admin Sample.alice JUndefined JUndefined 1000
              eq_refl (or_intror eq_refl)) as (sent & Hrun & Hc & _).
  eexists _, sent. split; [exact Hrun|].
  repeat split. exact Hc.
Defined.

(** ** Ingestion *)

Section Ingestion.


Lemma save_valid (data telemetry : Telemetry.Telemetry) :
  Telemetry.save data = Some telemetry ->
  Telemetry.validTelemetry telemetry = true.
Proof.
  unfold Telemetry.save.
  destruct (Telemetry.validTelemetry _) eqn:E; [|discriminate].
  now intros [= <-].
Qed.

(** [POST /api/telemetry] stores a record or nothing.  It answers 201
    exactly when the validation chain accepts the body and the schema
    accepts the record built from it, whose device id is the one of the
    body trimmed by the chain, passed through [sanitizeText] and trimmed
    again by the schema; then this record is appended to the stored
    records.  Otherwise it answers 400 and the store is as before.  No
    incident is added either way. *)
Theorem postTelemetry_stores_or_rejects (st : Store)
    (body : TelemetryController.Body) (now : Z) :
  let record :=
    {| Telemetry.deviceId :=
         trim (Validators.sanitizeString
                 (trim (TelemetryController.deviceId body)));
       Telemetry.timestamp :=
         match TelemetryController.timestamp body with
         | Some ts => ts
         | None => now
         end;
       Telemetry.sensors := TelemetryController.sensors body;
       Telemetry.gps := TelemetryController.gps body |} in
  let accepted :=
    Validators.validateTelemetry (TelemetryController.deviceId body)
      (Telemetry.ultrasonicLeft (TelemetryController.sensors body))
      (Telemetry.ultrasonicRight (TelemetryController.sensors body))
      (TelemetryController.gps body)
    && Telemetry.validTelemetry record in
  Routes.postTelemetry st body now
  = if accepted then
      (201%Z,
       {| events := events st; telemetry := telemetry st ++ [record] |})
    else (400%Z, st).
Proof.
  intros record accepted. unfold accepted, Routes.postTelemetry.
  destruct (Validators.validateTelemetry _ _ _ _); [|reflexivity].
  rewrite receiveTelemetry_cases. unfold Telemetry.save.
  cbn [TelemetryController.deviceId TelemetryController.timestamp
       TelemetryController.sensors TelemetryController.gps
       Telemetry.deviceId Telemetry.timestamp Telemetry.sensors
       Telemetry.gps andb].
  fold record. now destruct (Telemetry.validTelemetry record).
Qed.

(** Every stored record is within the ranges of the schema: both ingestion
    paths keep this true of the whole collection. *)
Theorem stored_records_stay_valid (st : Store)
    (body : TelemetryController.Body) (device : jsstring)
    (t : Telemetry.Telemetry) (now : Z) :
  Forall (fun r => Telemetry.validTelemetry r = true) (telemetry st) ->
  Forall (fun r => Telemetry.validTelemetry r = true)
    (telemetry (snd (Routes.postTelemetry st body now)))
  /\ Forall (fun r => Telemetry.validTelemetry r = true)
       (telemetry (MQTTClient.handleTelemetryMessage st device t now)).
Proof.
  intros Hst. split.
  - unfold Routes.postTelemetry.
    destruct (Validators.validateTelemetry _ _ _ _); [|exact Hst].
    rewrite receiveTelemetry_cases.
    destruct (Telemetry.save _) as [doc|] eqn:E; [|exact Hst].
    simpl. apply Forall_app. split; [exact Hst|].
    constructor; [exact (@save_valid _ _ E)|constructor].
  - rewrite handleTelemetryMessage_cases.
    destruct (Telemetry.save _) as [doc|] eqn:E; [|exact Hst].
    simpl. apply Forall_app. split; [exact Hst|].
    constructor; [exact (@save_valid _ _ E)|constructor].
Qed.


End Ingestion.

(** ** Accounts *)

Section Accounts.

Lemma login_locked (u : Account.Account) (ok : bool)
    (token : option jsstring) (now : Z) :
  Account.isLocked u now = true ->
  UserController.login u ok token now = (423%Z, u).
Proof. intros H. unfold UserController.login. now rewrite H. Qed.

(** Failed logins count up to the lock.  On an account with no lock a
    wrong password is answered 401 and counted; once four have been
    counted, the next one locks the account, and for the two hours that
    follow every login, with the right password too, is answered 423 and
    changes nothing.  Below that count no lock is set. *)
Theorem login_locks_after_five_failures (u : Account.Account)
    (token : option jsstring) (now : Z) :
  Account.lockUntil u = None ->
  let u1 := snd (UserController.login u false token now) in
  fst (UserController.login u false token now) = 401%Z
  /\ Account.loginAttempts u1 = (Account.loginAttempts u + 1)%Z
  /\ (if (4 <=? Account.loginAttempts u)%Z then
        forall (later : Z) (ok : bool) (token' : option jsstring),
          (now <= later < now + 2 * 60 * 60 * 1000)%Z ->
          UserController.login u1 ok token' later = (423%Z, u1)
      else Account.lockUntil u1 = None).
Proof.
  intros Hn u1. subst u1.
  unfold UserController.login, Account.isLocked, Account.incLoginAttempts.
  rewrite Hn. cbn [negb fst snd]. unfold Account.isLocked. rewrite Hn.
  cbn [negb andb]. rewrite andb_true_r.
  replace (5 <=? Account.loginAttempts u + 1)%Z
    with (4 <=? Account.loginAttempts u)%Z
    by (destruct (Z.leb_spec 4 (Account.loginAttempts u));
        destruct (Z.leb_spec 5 (Account.loginAttempts u + 1)); lia).
  destruct (4 <=? Account.loginAttempts u)%Z.
  - cbn [fst snd Account.loginAttempts Account.with_login].
    repeat split. intros later ok token' Hl.
    apply login_locked. unfold Account.isLocked, Account.lockTime. simpl.
    apply Z.ltb_lt. lia.
  - cbn [fst snd Account.loginAttempts Account.lockUntil Account.with_login].
    repeat split; try exact Hn.
Qed.

(** A lock ends by itself.  Once [lockUntil] has passed, on an account
    whose stored document passes its schema, the right password is
    answered 200 and clears the count and the lock, while a wrong one is
    answered 401 and restarts the count at one: it takes four more
    failures to lock the account again.  That wrong password leaves
    [accountLocked] as it was.  This holds whatever [fcmToken] the body
    carries. *)
Theorem login_after_the_lock (u : Account.Account) (until now : Z)
    (token : option jsstring) :
  Account.lockUntil u = Some until ->
  (until < now)%Z ->
  Account.save u = Some u ->
  (let (status, u1) := UserController.login u true token now in
   status = 200%Z
   /\ Account.loginAttempts u1 = 0%Z
   /\ Account.lockUntil u1 = None
   /\ Account.accountLocked u1 = false
   /\ Account.lastLogin u1 = Some now)
  /\ (let (status, u1) := UserController.login u false token now in
      status = 401%Z
      /\ Account.loginAttempts u1 = 1%Z
      /\ Account.lockUntil u1 = None
      /\ Account.accountLocked u1 = Account.accountLocked u).
Proof.
  intros Hu Hlt Hs.
  assert (Hv : forall tk,
             Account.save
               (Account.with_fcmToken (Account.resetLoginAttempts u now) tk)
             = Some (Account.with_fcmToken
                       (Account.resetLoginAttempts u now) tk)).
  { intros tk. unfold Account.save in *. simpl.
    now destruct (forallb _ (Account.devices u)). }
  unfold UserController.login, Account.isLocked, Account.incLoginAttempts.
  rewrite Hu.
  destruct (Z.ltb_spec now until) as [H | _]; [lia|].
  destruct (Z.ltb_spec until now) as [_ | H]; [|lia].
  cbn [negb]. split; [|simpl; repeat split].
  match goal with
  | |- context [if ?c then _ else _] => destruct c
  end; [rewrite Hv|]; simpl; repeat split.
Qed.

End Accounts.

Lemma login_locks_after_five_failures_witness :
  let u := {| Account._id := Sample.alice; Account.devices := [];
              Account.fcmToken := None; Account.isAdmin := false;
              Account.active := true; Account.lastLogin := None;
              Account.loginAttempts := 4; Account.accountLocked := false;
              Account.lockUntil := None |} in
  UserController.login (snd (UserController.login u false None 1000)) true
    None 5000
  = (423%Z, snd (UserController.login u false None 1000)).
Proof.
  intros u.
  destruct (@login_locks_after_five_failures u None 1000%Z eq_refl)
    as (_ & _ & H).
  apply (H 5000%Z true None). lia.
Defined.

Lemma login_after_the_lock_witness :
  let u := {| Account._id := Sample.alice; Account.devices := [];
              Account.fcmToken := None; Account.isAdmin := false;
              Account.active := true; Account.lastLogin := None;
              Account.loginAttempts := 5; Account.accountLocked := true;
              Account.lockUntil := Some 7201000%Z |} in
  fst (UserController.login u true (Some (lit "token-1")) 8000000) = 200%Z
  /\ Account.accountLocked
       (snd (UserController.login u false (Some (lit "token-1")) 8000000))
     = true.
Proof.
  intros u.
  assert (H : (7201000 < 8000000)%Z) by lia.
  destruct (@login_after_the_lock u 7201000%Z 8000000%Z
              (Some (lit "token-1")) eq_refl H eq_refl) as [H1 H2].
  destruct (UserController.login u true (Some (lit "token-1")) 8000000)
    as [status1 u1].
  destruct (UserController.login u false (Some (lit "token-1")) 8000000)
    as [status2 u2].
  split; [exact (proj1 H1)|].
  destruct H2 as (_ & _ & _ & H2). exact H2.
Defined.

(** ** Devices of an account *)

Section AccountDevices.

Lemma touch_ids (d : jsstring) (now : Z) (l : list Account.Device) :
  map Account.deviceId (Account.touch d now l) = map Account.deviceId l.
Proof.
  induction l as [|device l IH]; [reflexivity|].
  simpl. destruct (jsstring_eqb (Account.deviceId device) d);
    simpl; [reflexivity|now rewrite IH].
Qed.

Lemma hasDevice_ids (u : Account.Account) (d : jsstring) :
  Account.hasDevice u d
  = existsb (fun i => jsstring_eqb i d)
      (map Account.deviceId (Account.devices u)).
Proof.
  unfold Account.hasDevice.
  induction (Account.devices u) as [|device l IH]; [reflexivity|].
  simpl. now rewrite IH.
Qed.

Lemma hasDevice_In (u : Account.Account) (d : jsstring) :
  Account.hasDevice u d = true
  <-> In d (map Account.deviceId (Account.devices u)).
Proof.
  rewrite hasDevice_ids, existsb_exists. split.
  - intros (i & Hi & E). apply jsstring_eqb_eq in E. now subst.
  - intros H. exists d. split; [exact H|apply jsstring_eqb_refl].
Qed.

Lemma save_Some (u u1 : Account.Account) :
  Account.save u = Some u1 -> u1 = u.
Proof.
  unfold Account.save. destruct (forallb _ _); [|discriminate].
  now intros [= <-].
Qed.

(** What [addDevice] changes, for an id that [trim] leaves as it is. *)
Lemma addDevice_saved (u u1 : Account.Account) (d deviceName : jsstring)
    (now : Z) :
  trim d = d ->
  Account.addDevice u d deviceName now = Some u1 ->
  Account._id u1 = Account._id u
  /\ Account.active u1 = Account.active u
  /\ map Account.deviceId (Account.devices u1)
     = (if Account.hasDevice u d
        then map Account.deviceId (Account.devices u)
        else map Account.deviceId (Account.devices u) ++ [d])
  /\ forall d',
       Account.hasDevice u1 d'
       = Account.hasDevice u d' || jsstring_eqb d d'.
Proof.
  intros Ht H. unfold Account.addDevice in H. rewrite Ht in H.
  destruct (Account.hasDevice u d) eqn:Eh;
    apply save_Some in H; subst u1; simpl.
  - rewrite touch_ids. repeat split. intros d'.
    rewrite !hasDevice_ids. simpl. rewrite touch_ids.
    destruct (jsstring_eqb d d') eqn:E;
      [|now rewrite orb_false_r].
    apply jsstring_eqb_eq in E. subst d'.
    rewrite <- hasDevice_ids, Eh. reflexivity.
  - rewrite map_app. simpl. repeat split. intros d'.
    unfold Account.hasDevice. simpl. rewrite existsb_app. simpl.
    now rewrite orb_false_r.
Qed.

(** Adding a device and removing it again.  A device id that [trim]
    leaves as it is, added to an account whose entries pass the schema, is
    listed once afterwards, whether it was listed before or not; entries
    with distinct ids stay distinct; and when the id was new, removing it
    gives back the account as it was. *)
Theorem addDevice_then_removeDevice (u : Account.Account)
    (d deviceName : jsstring) (now : Z) :
  trim d = d ->
  d <> [] ->
  Account.save u = Some u ->
  NoDup (map Account.deviceId (Account.devices u)) ->
  exists u1,
    Account.addDevice u d deviceName now = Some u1
    /\ Account.hasDevice u1 d = true
    /\ NoDup (map Account.deviceId (Account.devices u1))
    /\ (Account.hasDevice u d = false ->
        Account.removeDevice u1 d = Some u).
Proof.
  intros Ht Hd Hs Hn.
  assert (Hv : forallb (fun device =>
                          match Account.deviceId device with
                          | [] => false
                          | _ => true
                          end) (Account.devices u) = true).
  { unfold Account.save in Hs. now destruct (forallb _ _). }
  assert (Hadd : exists u1, Account.addDevice u d deviceName now = Some u1).
  { unfold Account.addDevice, Account.save. rewrite Ht.
    destruct (Account.hasDevice u d); simpl.
    - replace (forallb _ (Account.touch d now (Account.devices u)))
        with true; [eauto|].
      symmetry. clear - Hv.
      induction (Account.devices u) as [|device l IH]; [reflexivity|].
      simpl in *. apply andb_true_iff in Hv. destruct Hv as [H1 H2].
      destruct (jsstring_eqb (Account.deviceId device) d); simpl.
      + now rewrite H1, H2.
      + now rewrite H1, IH.
    - rewrite forallb_app, Hv. simpl.
      destruct d; [contradiction|simpl; eauto]. }
  destruct Hadd as [u1 Hadd]. exists u1. split; [exact Hadd|].
  destruct (@addDevice_saved u u1 d deviceName now Ht Hadd)
    as (_ & _ & Hids & Hhas).
  split; [|split].
  - rewrite Hhas, jsstring_eqb_refl. apply orb_true_r.
  - rewrite Hids. destruct (Account.hasDevice u d) eqn:Eh; [exact Hn|].
    apply NoDup_app; [exact Hn|repeat constructor; simpl; tauto|].
    intros x Hx [<- | []].
    apply hasDevice_In in Hx. congruence.
  - intros Eh. unfold Account.addDevice in Hadd. rewrite Eh, Ht in Hadd.
    apply save_Some in Hadd. subst u1.
    unfold Account.removeDevice. simpl.
    rewrite filter_app. simpl. rewrite jsstring_eqb_refl. simpl.
    rewrite app_nil_r.
    replace (filter _ (Account.devices u)) with (Account.devices u).
    + destruct u. exact Hs.
    + symmetry. apply forallb_filter_id.
      apply forallb_forall. intros device Hdev.
      apply negb_true_iff, jsstring_eqb_neq. intros E.
      assert (Account.hasDevice u d = true); [|congruence].
      apply hasDevice_In. rewrite <- E. now apply in_map.
Qed.

Section Keys.

Variables (A K : Type) (key : A -> K) (keyb : K -> K -> bool).
Hypothesis keyb_eq : forall a b, keyb a b = true <-> a = b.

Lemma unique_key (l : list A) (x y : A) :
  NoDup (map key l) -> In x l -> In y l -> key x = key y -> x = y.
Proof.
  induction l as [|a l IH]; intros Hn Hx Hy E; [contradiction|].
  simpl in Hn. inversion Hn as [|? ? Ha Hn']; subst.
  destruct Hx as [-> | Hx], Hy as [-> | Hy]; auto.
  - exfalso. apply Ha. rewrite E. now apply in_map.
  - exfalso. apply Ha. rewrite <- E. now apply in_map.
Qed.

Lemma at_most_one_key (l : list A) (k : K) :
  NoDup (map key l) ->
  (List.length (filter (fun x => keyb (key x) k) l) <= 1)%nat.
Proof.
  induction l as [|a l IH]; intros Hn; [simpl; lia|].
  simpl in Hn. inversion Hn as [|? ? Ha Hn']; subst. simpl.
  destruct (keyb (key a) k) eqn:E; [|auto].
  apply keyb_eq in E. simpl.
  replace (filter (fun x => keyb (key x) k) l) with (@nil A);
    [simpl; lia|].
  symmetry. clear - Ha E keyb_eq.
  induction l as [|b l IH]; [reflexivity|].
  simpl. destruct (keyb (key b) k) eqn:E'.
  - exfalso. apply keyb_eq in E'. apply Ha. left. congruence.
  - apply IH. intros H. apply Ha. now right.
Qed.

End Keys.

Lemma filter_length_le (A : Type) (p q : A -> bool) (l : list A) :
  (forall x, In x l -> p x = true -> q x = true) ->
  (List.length (filter p l) <= List.length (filter q l))%nat.
Proof.
  induction l as [|a l IH]; intros H; [simpl; lia|].
  assert (IH' := IH (fun x Hx => H x (or_intror Hx))).
  simpl. destruct (p a) eqn:Ep.
  - rewrite (H a (or_introl eq_refl) Ep). simpl. lia.
  - destruct (q a); simpl; lia.
Qed.

Lemma filter_map_length (A : Type) (p : A -> bool) (f : A -> A)
    (l : list A) :
  List.length (filter p (map f l))
  = List.length (filter (fun x => p (f x)) l).
Proof.
  induction l as [|a l IH]; [reflexivity|].
  simpl. destruct (p (f a)); simpl; now rewrite IH.
Qed.

(** A device stays with one account.  When the ids of the accounts are
    distinct and no device is listed by two active accounts, that is still
    so after [POST /api/users/devices], whatever its answer. *)
Theorem addDevice_one_active_owner (db : list Account.Account)
    (caller : ObjectId) (d : jsstring) (deviceName : option jsstring)
    (now : Z) :
  NoDup (map Account._id db) ->
  (forall d',
     (List.length
        (filter (fun u => Account.active u && Account.hasDevice u d') db)
      <= 1)%nat) ->
  forall d',
    (List.length
       (filter (fun u => Account.active u && Account.hasDevice u d')
          (snd (UserController.addDevice db caller d deviceName now)))
     <= 1)%nat.
Proof.
  intros Hn Hinv d'. unfold UserController.addDevice.
  destruct (Validators.isValidDeviceId d) eqn:Ev; [|apply Hinv].
  cbn [negb].
  destruct (Account.findById db caller) as [user|] eqn:Ef; [|apply Hinv].
  apply find_some in Ef. destruct Ef as [Hin Hid].
  apply jsstring_eqb_eq in Hid.
  destruct (match Account.findByDeviceId db d with
            | Some existingUser => _
            | None => false
            end) eqn:Etaken; [apply Hinv|].
  pose proof (isValidDeviceId_chars _ Ev) as Hc.
  pose proof (trim_id _ Hc) as Ht.
  assert (Hsan : Validators.sanitizeString d = d).
  { unfold Validators.sanitizeString. rewrite Ht.
    apply filter_id with (g := Validators.isDeviceIdChar);
      [exact isDeviceIdChar_not_angle|exact Hc]. }
  rewrite Hsan.
  destruct (Account.addDevice user d _ now) as [saved|] eqn:Ea;
    [|apply Hinv].
  destruct (@addDevice_saved _ _ _ _ _ Ht Ea) as (Ei & Eact & _ & Hhas).
  cbn [snd]. unfold Account.store. rewrite filter_map_length.
  set (p := fun u => Account.active u && Account.hasDevice u d').
  assert (Hu : forall x, In x db -> Account._id x = Account._id saved ->
                         x = user).
  { intros x Hx E.
    apply (@unique_key _ _ Account._id db x user Hn Hx Hin). congruence. }
  destruct (p user || negb (jsstring_eqb d d')) eqn:Ecase.
  - rewrite (filter_ext_in _ p); [apply Hinv|].
    intros x Hx. cbv beta.
    destruct (jsstring_eqb (Account._id x) (Account._id saved)) eqn:Ex;
      [|reflexivity].
    apply jsstring_eqb_eq in Ex. rewrite (Hu x Hx Ex).
    fold (p saved). unfold p. rewrite Eact, Hhas.
    apply orb_true_iff in Ecase. destruct Ecase as [Ep | Ed].
    + unfold p in Ep. apply andb_true_iff in Ep. destruct Ep as [-> ->].
      reflexivity.
    + apply negb_true_iff in Ed. now rewrite Ed, orb_false_r.
  - apply orb_false_iff in Ecase. destruct Ecase as [Ep Ed].
    apply negb_false_iff, jsstring_eqb_eq in Ed. subst d'.
    assert (Hnone : forall x, In x db -> p x = false).
    { unfold Account.findByDeviceId in Etaken.
      destruct (find _ db) as [e|] eqn:Efd.
      - apply find_some in Efd. destruct Efd as [He Hpe].
        apply negb_false_iff, jsstring_eqb_eq in Etaken.
        assert (e = user).
        { apply (@unique_key _ _ Account._id db e user Hn He Hin Etaken). }
        subst e. unfold p in Ep. rewrite andb_comm in Hpe. congruence.
      - intros x Hx. unfold p. rewrite andb_comm.
        exact (find_none _ _ Efd x Hx). }
    etransitivity;
      [|apply (@at_most_one_key _ _ Account._id jsstring_eqb
                 jsstring_eqb_eq db (Account._id saved) Hn)].
    apply filter_length_le. intros x Hx. cbv beta.
    destruct (jsstring_eqb (Account._id x) (Account._id saved));
      [reflexivity|].
    fold (p x). rewrite (Hnone x Hx). discriminate.
Qed.

End AccountDevices.

Lemma stored_records_stay_valid_witness :
  let st := add_telemetry Sample.emptyStore
              (Sample.telemetryPayload (Sample.battery 50) 500) in
  Forall (fun r => Telemetry.validTelemetry r = true)
    (telemetry
       (snd (Routes.postTelemetry st
               (Sample.telemetryBody (Sample.battery 15) 1000) 2000)))
  /\ Forall (fun r => Telemetry.validTelemetry r = true)
       (telemetry
          (MQTTClient.handleTelemetryMessage st Sample.stick001
             (Sample.telemetryPayload (Sample.battery 15) 1000) 2000)).
Proof.
  intros st. apply stored_records_stay_valid.
  constructor; [reflexivity|constructor].
Defined.


Lemma addDevice_then_removeDevice_witness :
  let u := {| Account._id := Sample.alice; Account.devices := [];
              Account.fcmToken := None; Account.isAdmin := false;
              Account.active := true; Account.lastLogin := None;
              Account.loginAttempts := 0; Account.accountLocked := false;
              Account.lockUntil := None |} in
  exists u1,
    Account.addDevice u Sample.stick001 (lit "Smart Stick") 1000 = Some u1
    /\ Account.hasDevice u1 Sample.stick001 = true
    /\ NoDup (map Account.deviceId (Account.devices u1))
    /\ (Account.hasDevice u Sample.stick001 = false ->
        Account.removeDevice u1 Sample.stick001 = Some u).
Proof.
  intros u.
  apply (@addDevice_then_removeDevice u Sample.stick001 (lit "Smart Stick")
           1000%Z).
  - reflexivity.
  - discriminate.
  - reflexivity.
  - constructor.
Defined.

Lemma addDevice_one_active_owner_witness :
  let account (id : ObjectId) :=
    {| Account._id := id; Account.devices := [];
       Account.fcmToken := None; Account.isAdmin := false;
       Account.active := true; Account.lastLogin := None;
       Account.loginAttempts := 0; Account.accountLocked := false;
       Account.lockUntil := None |} in
  let db := [account Sample.alice; account Sample.bob] in
  fst (UserController.addDevice db Sample.alice Sample.stick001 None 1000)
  = 201%Z
  /\ (List.length
        (filter
           (fun u => Account.active u
                     && Account.hasDevice u Sample.stick001)
           (snd (UserController.addDevice db Sample.alice Sample.stick001
                   None 1000)))
      <= 1)%nat.
Proof.
  intros account db. split; [reflexivity|].
  apply (@addDevice_one_active_owner db Sample.alice Sample.stick001 None
           1000%Z).
  - repeat constructor; simpl; intuition discriminate.
  - intros d'. simpl. lia.
Defined.
